(** * Token providers of foundry_dev_tools.config.token_provider

    A shallow embedding of [token_provider.py] and the properties of its
    caching discipline, its OAuth strategies and its request decoration.

    Conventions of the embedding:
    - a Python [str] is a [string]; its characters are read as Latin-1
      code points (the only strings [bytes(s, "ISO-8859-1")] accepts);
    - a [float] is the rational [Q] it stands for, and comparisons are those
      of the rationals; the sum [expires_in + time.time()] is rounded to
      binary64 as Python rounds it ([float_add]), while the two sums with a
      constant, [time.time() + 10] and [time.time() + 3600], are taken
      exactly;
    - an attribute that is [T | None] is an [option T];
    - a method that mutates [self] or talks to the outside world is a
      function in the monad [Py], which threads a state and keeps it when
      an exception is raised, as Python does. *)

From Stdlib Require Import Ascii String NArith ZArith QArith Qreduction Qabs.
From Stdlib Require Qcanon.
From stdpp Require Import base option list strings gmap fin_maps.
From Stdlib Require Import Lia.

Local Open Scope string_scope.
Local Open Scope Z_scope.

(** ** Python values and exceptions *)

(** Modelled from the spec: [config_types.Token] is declared outside this
    module; the spec has it as an opaque string. *)
Definition Token := string.

(** [bool(s)] for a string and [bool(x)] for an optional string: the empty
    string and [None] are falsy. *)
Definition str_truthy (s : string) : bool :=
  match s with
  | EmptyString => false
  | String _ _ => true
  end.

Definition opt_truthy (o : option string) : bool :=
  match o with
  | None => false
  | Some s => str_truthy s
  end.

(** A parsed JSON document, as [Response.json()] hands it back. A number
    written as an integer is a Python [int]; a number written with a
    fraction or an exponent is a [float], the binary64 number nearest to
    the value [x] that was written. *)
#[warnings="-register-all"]
Inductive json : Type :=
| JNull
| JBool (b : bool)
| JInt (z : Z)
| JFloat (x : Q)
| JStr (s : string)
| JArr (items : list json)
| JObj (fields : list (string * json)).

(** [timestamp_lt a b] is the float comparison [a < b]. *)
Definition timestamp_lt (a b : Q) : bool := negb (Qle_bool b a).

(** ** Floats

    A finite binary64 number is [m * 2 ^ E] with [|m| < 2 ^ 53] and
    [-1074 <= E <= 971]. The two infinities are written [float_max] and
    [- float_max], the first power of two beyond the finite range, which
    keeps them in order with every finite number. No NaN is written. *)

(** [n / d] rounded to the nearest integer, a tie going to the even one,
    for [0 <= n] and [0 < d]. *)
Definition round_half_even (n d : Z) : Z :=
  let k := n / d in
  match 2 * (n mod d) ?= d with
  | Lt => k
  | Gt => k + 1
  | Eq => if Z.even k then k else k + 1
  end.

(** The fraction [(a / d) / 2 ^ E] as a numerator and a denominator. *)
Definition scale_ratio (a d E : Z) : Z * Z :=
  if 0 <=? E then (a, d * 2 ^ E) else (a * 2 ^ (- E), d).

(** The [e] with [2 ^ e <= a / d < 2 ^ (e + 1)], for [0 < a] and [0 < d]. *)
Definition floor_log2 (a d : Z) : Z :=
  let e0 := Z.log2 a - Z.log2 d in
  let (n, m) := scale_ratio a d e0 in
  if m <=? n then e0 else e0 - 1.

(** [m * 2 ^ E] as a fraction in lowest terms. *)
Definition dyadic (m E : Z) : Q :=
  Qred (if 0 <=? E then (m * 2 ^ E) # 1 else m # Z.to_pos (2 ^ (- E))).

(** The binary64 number nearest to [q], a tie going to the even
    significand; [None] when that rounding leaves the finite range. The
    significand has 53 bits where the exponent allows it and fewer below
    [2 ^ -1022], where the numbers are the multiples of [2 ^ -1074]. *)
Definition round64 (q : Q) : option Q :=
  let n := Qnum (Qred q) in
  let d := Z.pos (Qden (Qred q)) in
  if n =? 0 then Some 0%Q
  else
    let a := Z.abs n in
    let E := Z.max (floor_log2 a d - 52) (-1074) in
    let (x, y) := scale_ratio a d E in
    let m := round_half_even x y in
    if 2 ^ (1024 - E) <=? m then None
    else Some (dyadic (Z.sgn n * m) E).

Definition float_max : Q := 2 ^ 1024 # 1.

(** The infinity on the side of [q]. *)
Definition inf_of (q : Q) : Q :=
  if Qle_bool 0 q then float_max else (- float_max)%Q.

Definition is_inf (x : Q) : bool := Qle_bool float_max (Qabs x).

(** [float(q)] for a number written in a document: the nearest float, an
    infinity beyond the finite range. *)
Definition to_float (q : Q) : Q :=
  match round64 q with
  | Some f => f
  | None => inf_of q
  end.

(** [x + y] for two floats: the exact sum, rounded; an infinity stays what
    it is next to a finite number. (The sum of the two opposite infinities
    is a NaN and has no value here.) *)
Definition float_add (x y : Q) : Q :=
  if is_inf x then inf_of x
  else if is_inf y then inf_of y
  else to_float (x + y).


(** Modelled from the spec: the enum [config_types.FoundryOAuthGrantType]
    is declared outside this module; the spec names its two members, the
    authorization-code and the client-credentials grant, and [__init__]
    below looks the first one up by the value ["authorization_code"]. *)
Inductive FoundryOAuthGrantType : Type :=
| authorization_code
| client_credentials.

Definition grant_type_is (a b : FoundryOAuthGrantType) : bool :=
  match a, b with
  | authorization_code, authorization_code => true
  | client_credentials, client_credentials => true
  | _, _ => false
  end.

(** An exception message: a literal, or an f-string with the grant type
    interpolated between two literals (how an enum member is rendered is
    left to Python). *)
Inductive pymsg : Type :=
| Msg (text : string)
| MsgGrant (before : string) (g : FoundryOAuthGrantType) (after : string).

(** The exceptions this module raises or lets through.
    [TokenProviderConfigError] and [FoundryAPIError] come from the [errors]
    package and are kept as what they carry; [ExternalError] stands for
    whatever a collaborator raises. *)
Inductive Exn : Type :=
| NotImplementedError (msg : pymsg)
| TokenProviderConfigError (msg : pymsg)
| FoundryAPIError (payload : gmap string json)
| AttributeError (msg : pymsg)
| KeyError (key : string)
| TypeError (operand : json)
| OverflowError (msg : pymsg)
| ValueError (value : string)
| ExternalError (what : string)
| IllTyped (value : json).

Inductive Result (A : Type) : Type :=
| Ok (a : A)
| Raise (e : Exn).
Arguments Ok {A} a.
Arguments Raise {A} e.

(** ** The monad of Python methods

    [Py Σ A] runs on a state [Σ] and ends in a value or in an exception;
    the state reached so far survives the exception. *)
Definition Py (Σ A : Type) : Type := Σ -> Result A * Σ.

Definition ret {Σ A} (a : A) : Py Σ A := fun σ => (Ok a, σ).

Definition raise {Σ A} (e : Exn) : Py Σ A := fun σ => (Raise e, σ).

Definition bind {Σ A B} (m : Py Σ A) (k : A -> Py Σ B) : Py Σ B :=
  fun σ =>
    match m σ with
    | (Ok a, σ') => k a σ'
    | (Raise e, σ') => (Raise e, σ')
    end.

Definition get {Σ} : Py Σ Σ := fun σ => (Ok σ, σ).

Definition put {Σ} (σ' : Σ) : Py Σ unit := fun _ => (Ok tt, σ').

(** [zoom view update m] runs [m] on a part of the state. *)
Definition zoom {Σ T A} (view : Σ -> T) (update : T -> Σ -> Σ) (m : Py T A) : Py Σ A :=
  fun σ => let (r, t') := m (view σ) in (r, update t' σ).

Declare Scope py_scope.
Delimit Scope py_scope with py.
Notation "x <- m ;; k" := (bind m (fun x => k))
  (at level 20, m at level 99, k at level 200, only parsing) : py_scope.
Notation "m ;; k" := (bind m (fun _ => k))
  (at level 100, k at level 200, only parsing, right associativity) : py_scope.

Local Open Scope py_scope.

(** ** Strings, bytes and headers *)

(** [str.lower()] on Latin-1 text: A-Z and the accented capitals
    U+00C0-U+00DE (but the multiplication sign U+00D7) move up by 32. *)
Definition latin1_lower (c : ascii) : ascii :=
  let n := N_of_ascii c in
  if ((65 <=? n) && (n <=? 90) || (192 <=? n) && (n <=? 222) && negb (n =? 215))%N
  then ascii_of_N (n + 32)
  else c.

Fixpoint str_lower (s : string) : string :=
  match s with
  | EmptyString => EmptyString
  | String c rest => String (latin1_lower c) (str_lower rest)
  end.

(** [bytes(s, "ISO-8859-1")]: one byte per character, its code point. *)
Definition latin1_bytes (s : string) : list N :=
  N_of_ascii <$> list_ascii_of_string s.

Definition b64_alphabet : string :=
  "ABCDEFGHIJKLMNOPQRSTUVWXYZabcdefghijklmnopqrstuvwxyz0123456789+/".

Definition b64_digit (n : N) : ascii :=
  match String.get (N.to_nat n) b64_alphabet with
  | Some c => c
  | None => "="%char
  end.

(** [base64.b64encode(bs).decode("ascii")]: three bytes give four digits of
    six bits, a short last group is padded with [=]. *)
Fixpoint b64encode (bs : list N) : string :=
  match bs with
  | [] => ""
  | [a] =>
      String (b64_digit (a / 4))
        (String (b64_digit (a mod 4 * 16)) "==")
  | [a; b] =>
      String (b64_digit (a / 4))
        (String (b64_digit (a mod 4 * 16 + b / 16))
           (String (b64_digit (b mod 16 * 4)) "="))
  | a :: b :: c :: rest =>
      String (b64_digit (a / 4))
        (String (b64_digit (a mod 4 * 16 + b / 16))
           (String (b64_digit (b mod 16 * 4 + c / 64))
              (String (b64_digit (c mod 64)) (b64encode rest))))
  end%N.

(** [" ".join(items)] *)
Fixpoint space_join (items : list string) : string :=
  match items with
  | [] => ""
  | [s] => s
  | s :: rest => s ++ " " ++ space_join rest
  end.

(** [requests.structures.CaseInsensitiveDict]: the store is keyed by the
    lower-cased name and keeps the name as it was last written next to the
    value. *)
Module CaseInsensitiveDict.

Abbreviation t := (gmap string (string * string)).

Definition __setitem__ (d : t) (key value : string) : t :=
  <[str_lower key := (key, value)]> d.

Definition get (d : t) (key : string) : option string :=
  snd <$> d !! str_lower key.

(** [MutableMapping.setdefault]: the mapping is written only when the
    lookup raises [KeyError]. *)
Definition setdefault (d : t) (key default : string) : t :=
  match get d key with
  | Some _ => d
  | None => __setitem__ d key default
  end.

(** [CaseInsensitiveDict(data)] for a dict [data], in insertion order. *)
Definition of_dict (data : list (string * string)) : t :=
  foldl (fun d kv => __setitem__ d kv.1 kv.2) ∅ data.

End CaseInsensitiveDict.

(** The part of [requests.PreparedRequest] a token provider sees. *)
Record PreparedRequest : Type := mkPreparedRequest {
  method : string;
  url : string;
  headers : CaseInsensitiveDict.t;
  body : option string;
}.

(** ** The outside world *)

(** Modelled from the spec: [config_types.Host] is declared outside this
    module; the spec gives it a domain and a base URL, the two attributes
    read here ([host.domain], [host.url]). *)
Record Host : Type := mkHost {
  domain : string;
  host_url : string;
}.

(** A value of the [data=] dictionary of [requests.request]. *)
Inductive form_value : Type :=
| FormStr (s : string)
| FormList (items : list string).

(** The arguments of one [requests.request(...)] call. *)
Record HttpCall : Type := mkHttpCall {
  call_method : string;
  call_url : string;
  call_data : list (string * form_value);
  call_headers : list (string * string);
  call_timeout : Z;
}.

(** [requests.models.RequestEncodingMixin._encode_params] for a dict: a
    string value gives one field, an iterable value gives one field per
    element; these are the fields of the form body, before percent
    encoding. *)
Definition encode_params (data : list (string * form_value)) : list (string * string) :=
  data ≫= (fun kv =>
    match kv.2 with
    | FormStr s => [(kv.1, s)]
    | FormList items => (fun v => (kv.1, v)) <$> items
    end).

(** The keyword arguments of [palantir_oauth_client.get_user_credentials]. *)
Record UserCredentialsCall : Type := mkUserCredentialsCall {
  uc_scopes : list string;
  uc_hostname : string;
  uc_client_id : string;
  uc_client_secret : option string;
  uc_use_local_webserver : bool;
}.

(** Whether an optional package can be imported, and what it then gives. *)
Inductive Importable (A : Type) : Type :=
| ImportError
| Imported (a : A).
Arguments ImportError {A}.
Arguments Imported {A} a.

(** What a collaborator does when called: it answers, or it raises an
    exception of its own (a network failure, a body that is not JSON, a
    refused login). *)
Inductive Reply (A : Type) : Type :=
| Answer (a : A)
| Failure (what : string).
Arguments Answer {A} a.
Arguments Failure {A} what.

Definition result_of_reply {A} (r : Reply A) : Result A :=
  match r with
  | Answer a => Ok a
  | Failure what => Raise (ExternalError what)
  end.

(** What the process can observe and do outside the provider objects.
    [clock n] is the n-th reading of [time.time()]; the token endpoint and
    the OAuth client answer their n-th call; both logs are in call order.
    [streamlit_headers] is what [_get_websocket_headers()] returns;
    [flask_headers] is [None] outside a request context, where reading
    [request.headers] raises [RuntimeError]. *)
Record Env : Type := mkEnv {
  clock : nat -> Q;
  clock_reads : nat;
  token_endpoint : nat -> HttpCall -> Reply (gmap string json);
  http_log : list HttpCall;
  oauth_client : nat -> UserCredentialsCall -> Reply (Token * Q);
  oauth_log : list UserCredentialsCall;
  streamlit_headers : Importable (option (list (string * string)));
  flask_headers : Importable (option (list (string * string)));
}.

(** The environment, and the number of times [token] has called
    [_request_token]: a counter for the statements below, which no code
    reads. *)
Record World : Type := mkWorld {
  env : Env;
  acquire_calls : nat;
}.

(** The next reading of the clock. *)
Definition now (e : Env) : Q := clock e (clock_reads e).

(** The environment after one reading of the clock. *)
Definition tick (e : Env) : Env :=
  mkEnv (clock e) (S (clock_reads e)) (token_endpoint e) (http_log e)
    (oauth_client e) (oauth_log e) (streamlit_headers e) (flask_headers e).

Definition log_http (c : HttpCall) (e : Env) : Env :=
  mkEnv (clock e) (clock_reads e) (token_endpoint e) (http_log e ++ [c])
    (oauth_client e) (oauth_log e) (streamlit_headers e) (flask_headers e).

Definition log_oauth (c : UserCredentialsCall) (e : Env) : Env :=
  mkEnv (clock e) (clock_reads e) (token_endpoint e) (http_log e)
    (oauth_client e) (oauth_log e ++ [c]) (streamlit_headers e) (flask_headers e).

(** [time.time()] *)
Definition time_time : Py Env Q :=
  fun e => (Ok (now e), tick e).

(** [requests.request(...).json()] *)
Definition requests_request_json (c : HttpCall) : Py Env (gmap string json) :=
  fun e => (result_of_reply (token_endpoint e (length (http_log e)) c), log_http c e).

(** [palantir_oauth_client.get_user_credentials(...)], read as the pair
    [(credentials.token, credentials.expiry.timestamp())]. *)
Definition get_user_credentials (c : UserCredentialsCall) : Py Env (Token * Q) :=
  fun e => (result_of_reply (oauth_client e (length (oauth_log e)) c), log_oauth c e).

(** Running an action of the environment from inside a method, whose state
    is the object and the world. *)
Definition io {P A} (m : Py Env A) : Py (P * World) A :=
  zoom (fun σ => env σ.2) (fun e σ => (σ.1, mkWorld e (acquire_calls σ.2))) m.

Definition get_self {P} : Py (P * World) P :=
  fun σ => (Ok σ.1, σ).

Definition set_self {P} (self : P) : Py (P * World) unit :=
  fun σ => (Ok tt, (self, σ.2)).

(** ** Token providers *)

(** What every provider class offers: the property [token]. It may change
    the object and the world, and it may raise. What it returns is spliced
    into an f-string, where [None] reads ["None"]. *)
Class TokenProviderClass (P : Type) : Type :=
  token : Py (P * World) (option Token).

Definition py_format (v : option string) : string :=
  match v with
  | Some s => s
  | None => "None"
  end.

(** The request being decorated lives next to the provider and the world:
    it is the caller's object, changed in place. *)
Definition with_request {P A} (m : Py (P * World) A) : Py (P * World * PreparedRequest) A :=
  zoom fst (fun σ ρ => (σ, ρ.2)) m.

Module TokenProvider.

(** The base class holds the host only. *)
Record t : Type := mk { host : Host }.

Definition __init__ (host : Host) : t := mk host.

#[global] Instance token_base : TokenProviderClass t :=
  raise (NotImplementedError
    (Msg "This is only the base TokenProvider class and does not implement getting a token.")).

(** [r.headers.setdefault("authorization", f"Bearer {self.token}")]: the
    argument, hence [self.token], is evaluated before [setdefault] looks at
    the headers. *)
Definition requests_auth_handler {P} `{TokenProviderClass P}
    : Py (P * World * PreparedRequest) PreparedRequest :=
  tok <- with_request token ;;
  r <- zoom snd (fun r ρ => (ρ.1, r)) get ;;
  let r' :=
    mkPreparedRequest (method r) (url r)
      (CaseInsensitiveDict.setdefault (headers r) "authorization" ("Bearer " ++ py_format tok))
      (body r) in
  zoom snd (fun r ρ => (ρ.1, r)) (put r') ;;
  ret r'.

End TokenProvider.

Module JWTTokenProvider.

Record t : Type := mk { host : Host; _jwt : Token }.

Definition __init__ (host : Host) (jwt : Token) : t := mk host jwt.

(** A [cached_property] over an attribute that is never reassigned: every
    read gives [_jwt]. *)
#[global] Instance token_jwt : TokenProviderClass t :=
  self <- get_self ;;
  ret (Some (_jwt self)).

End JWTTokenProvider.

(** [CachedTokenProvider] over the attributes [C] of a subclass. The
    subclass supplies [_request_token], which reads the object and acts on
    the environment; like the three implementations of this module, it
    assigns nothing to [self]. *)
Module CachedTokenProvider.

Record t (C : Type) : Type := mk {
  host : Host;
  _cached : option Token;
  _valid_until : Q;
  _clock_skew : Z;
  sub : C;
}.
Arguments mk {C} host _cached _valid_until _clock_skew sub.
Arguments host {C} _.
Arguments _cached {C} _.
Arguments _valid_until {C} _.
Arguments _clock_skew {C} _.
Arguments sub {C} _.

(** The class attributes a fresh instance starts from. *)
Definition fresh {C} (host : Host) (sub : C) : t C :=
  mk host None (-1) 10 sub.

Class Subclass (C : Type) : Type :=
  _request_token : t C -> Py Env (option Token * Q).

Definition invalidate_cache {C} (self : t C) : t C :=
  mk (host self) None (-1) (_clock_skew self) (sub self).

(** The method of the class itself, for an instance of no subclass. *)
#[global] Instance _request_token_base : Subclass unit :=
  fun _ => raise (NotImplementedError
    (Msg "This needs to be implemented by a class, this is just the meta class.")).

(** The call [self._request_token()] made by [token], counted. *)
Definition acquire {C} `{Subclass C} : Py (t C * World) (option Token * Q) :=
  fun σ =>
    let (r, e') := _request_token σ.1 (env σ.2) in
    (r, (σ.1, mkWorld e' (S (acquire_calls σ.2)))).

(** [not self._cached or self._valid_until < time.time() + 10]: the clock
    is read only when a truthy token is cached. *)
Definition must_refresh {C} : Py (t C * World) bool :=
  self <- get_self ;;
  if negb (opt_truthy (_cached self)) then ret true
  else
    t0 <- io time_time ;;
    ret (timestamp_lt (_valid_until self) (t0 + 10)).

#[global] Instance token_cached {C} `{Subclass C} : TokenProviderClass (t C) :=
  stale <- must_refresh ;;
  (if (stale : bool) then
     rec <- acquire ;;
     self <- get_self ;;
     set_self (mk (host self) rec.1 rec.2 (_clock_skew self) (sub self))
   else ret tt) ;;
  self <- get_self ;;
  ret (_cached self).

End CachedTokenProvider.

(** Running an action of the environment from a constructor, where there
    is no object yet. *)
Definition io_new {A} (m : Py Env A) : Py World A :=
  zoom env (fun e w => mkWorld e (acquire_calls w)) m.

Definition of_result {Σ A} (r : Result A) : Py Σ A := fun σ => (r, σ).

Definition DEFAULT_OAUTH_SCOPES : list string :=
  [ "offline_access";
    "compass:view";
    "compass:edit";
    "compass:discover";
    "api:write-data";
    "api:read-data";
    "build2:run-build-using-service" ].

(** ** Reading the token endpoint's answer *)

(** [credentials[key]] *)
Definition dict_getitem {Σ} (d : gmap string json) (key : string) : Py Σ json :=
  match d !! key with
  | Some v => ret v
  | None => raise (KeyError key)
  end.

(** [key in credentials] *)
Definition dict_contains (key : string) (d : gmap string json) : bool :=
  bool_decide (is_Some (d !! key)).

(** [float(z)] for an [int], as [+] converts it next to a float: the
    nearest float, or [OverflowError] beyond the finite range. *)
Definition float_of_int {Σ} (z : Z) : Py Σ Q :=
  match round64 (inject_Z z) with
  | Some f => ret f
  | None => raise (OverflowError (Msg "int too large to convert to float"))
  end.

(** [value + t] for a float [t]: an [int] is converted and added, a float
    is added, [True] and [False] count as 1 and 0, anything else raises
    [TypeError]. *)
Definition add_float {Σ} (value : json) (t0 : Q) : Py Σ Q :=
  match value with
  | JInt z => f <- float_of_int z ;; ret (float_add f t0)
  | JFloat x => ret (float_add (to_float x) t0)
  | JBool b => ret (float_add (if b then 1 else 0) t0)
  | other => raise (TypeError other)
  end.

(** [credentials["access_token"]] is returned as it is: a string is the
    token, [null] is [None]. A number, a list or an object, which
    [Token | None] cannot hold, would be handed on just the same; the
    embedding has no value for them and ends the run there with
    [IllTyped], which is no Python exception. *)
Definition as_token {Σ} (value : json) : Py Σ (option Token) :=
  match value with
  | JStr s => ret (Some s)
  | JNull => ret None
  | other => raise (IllTyped other)
  end.

Module OAuthTokenProvider.

Record attrs : Type := mk {
  grant_type : FoundryOAuthGrantType;
  _client_id : string;
  _client_secret : option string;
  scopes : list string;
}.

Abbreviation t := (CachedTokenProvider.t attrs).

(** The argument [grant_type: FoundryOAuthGrantType | str | None]. *)
Inductive grant_arg : Type :=
| Member (g : FoundryOAuthGrantType)
| Value (s : string).

(** [FoundryOAuthGrantType(value)]: the member with that value. *)
Definition member_of_value (s : string) : Result FoundryOAuthGrantType :=
  if String.eqb s "authorization_code" then Ok authorization_code
  else if String.eqb s "client_credentials" then Ok client_credentials
  else Raise (ValueError s).

(** [FoundryOAuthGrantType(grant_type or "authorization_code")] *)
Definition resolve_grant_type (g : option grant_arg) : Result FoundryOAuthGrantType :=
  match g with
  | None => member_of_value "authorization_code"
  | Some (Member m) => Ok m
  | Some (Value s) => member_of_value (if str_truthy s then s else "authorization_code")
  end.

Definition __init__ (host : Host) (client_id : string) (client_secret : option string)
    (grant_type : option grant_arg) (scopes : option (list string)) : Py World t :=
  g <- of_result (resolve_grant_type grant_type) ;;
  if grant_type_is g client_credentials && bool_decide (client_secret = None) then
    raise (TokenProviderConfigError
      (Msg "You need to provide a client secret for the client credentials grant type."))
  else
    let chosen :=
      if grant_type_is g authorization_code then
        match scopes with
        | Some given => given
        | None => DEFAULT_OAUTH_SCOPES
        end
      else
        match scopes with
        | Some (s :: rest) => s :: rest
        | _ => []
        end in
    ret (CachedTokenProvider.fresh host (mk g client_id client_secret chosen)).

(** The [requests.request] call of the client-credentials exchange. *)
Definition token_request (self : t) (secret : string) : HttpCall :=
  mkHttpCall "POST"
    (host_url (CachedTokenProvider.host self) ++ "/multipass/api/oauth2/token")
    [ ("grant_type", FormStr "client_credentials");
      ("scope", FormList (scopes (CachedTokenProvider.sub self))) ]
    [ ("Content-Type", "application/x-www-form-urlencoded");
      ("Authorization",
       "Basic " ++ b64encode
         (latin1_bytes (_client_id (CachedTokenProvider.sub self) ++ ":" ++ secret))) ]
    30.

#[global] Instance _request_token : CachedTokenProvider.Subclass attrs :=
  fun self =>
    let a := CachedTokenProvider.sub self in
    if grant_type_is (grant_type a) authorization_code then
      credentials <- get_user_credentials
        (mkUserCredentialsCall (scopes a) (domain (CachedTokenProvider.host self))
           (_client_id a) (_client_secret a) false) ;;
      ret (Some credentials.1, credentials.2)
    else
      match grant_type_is (grant_type a) client_credentials, _client_secret a with
      | true, Some secret =>
          credentials <- requests_request_json (token_request self secret) ;;
          if dict_contains "error" credentials then
            raise (FoundryAPIError credentials)
          else
            access_token <- dict_getitem credentials "access_token" ;;
            expires_in <- dict_getitem credentials "expires_in" ;;
            t0 <- time_time ;;
            expiry <- add_float expires_in t0 ;;
            tok <- as_token access_token ;;
            ret (tok, expiry)
      | _, None =>
          raise (AttributeError
            (MsgGrant "For grant type " (grant_type a) " you need to set a client_secret."))
      | _, _ =>
          raise (NotImplementedError
            (MsgGrant "Grant type " (grant_type a) " is not implemented."))
      end.

End OAuthTokenProvider.

Module AppServiceTokenProvider.

Record attrs : Type := mk { }.

Abbreviation t := (CachedTokenProvider.t attrs).

Definition header : string := "X-Foundry-AccessToken".

(** The streamlit branch: the package imports, the websocket headers are a
    non-empty dict and hold a non-empty value under the header name. *)
Definition streamlit_token : Py Env (option Token) :=
  e <- get ;;
  match streamlit_headers e with
  | Imported (Some (h :: hs)) =>
      match CaseInsensitiveDict.get (CaseInsensitiveDict.of_dict (h :: hs)) header with
      | Some tok => if str_truthy tok then ret (Some tok) else ret None
      | None => ret None
      end
  | _ => ret None
  end.

(** werkzeug's [Headers.get]: the first field whose name matches, case
    aside. *)
Fixpoint headers_get (hs : list (string * string)) (key : string) : option string :=
  match hs with
  | [] => None
  | (k, v) :: rest =>
      if String.eqb (str_lower k) (str_lower key) then Some v else headers_get rest key
  end.

(** The flask branch: the package imports, a request is active (else the
    [RuntimeError] is swallowed) and carries a non-empty header. *)
Definition flask_token : Py Env (option Token) :=
  e <- get ;;
  match flask_headers e with
  | Imported (Some hs) =>
      match headers_get hs header with
      | Some tok => if str_truthy tok then ret (Some tok) else ret None
      | None => ret None
      end
  | _ => ret None
  end.

(** [self._cached = token; self._valid_until = time.time() + 3600] *)
Definition capture (host : Host) (tok : Token) : Py Env t :=
  t0 <- time_time ;;
  ret (CachedTokenProvider.mk host (Some tok) (t0 + 3600) 10 mk).

Definition __init__ (host : Host) : Py World t :=
  io_new (
    found <- streamlit_token ;;
    match found with
    | Some tok => capture host tok
    | None =>
        found <- flask_token ;;
        match found with
        | Some tok => capture host tok
        | None =>
            raise (TokenProviderConfigError
              (Msg "Could not get Foundry token from flask/dash/streamlit headers."))
        end
    end).

#[global] Instance _request_token : CachedTokenProvider.Subclass attrs :=
  fun _ => raise (TokenProviderConfigError (Msg "Token is expired. Please refresh the web page.")).

End AppServiceTokenProvider.

(** ** Vocabulary of the statements *)

Section Vocabulary.

Context {C : Type} `{CachedTokenProvider.Subclass C}.

Import CachedTokenProvider.

(** No record is cached: the cached token is [None] or empty, which is
    what [not self._cached] tests. *)
Definition no_record (self : t C) : Prop := opt_truthy (_cached self) = false.

(** The cached record expires before [now + 10]. *)
Definition expiring (self : t C) (e : Env) : Prop :=
  (_valid_until self < now e + 10)%Q.

(** The guard of [token], as a boolean. *)
Definition stale (self : t C) (e : Env) : bool :=
  negb (opt_truthy (_cached self)) || timestamp_lt (_valid_until self) (now e + 10).

(** The environment in which the guard leaves the clock. *)
Definition checked (self : t C) (e : Env) : Env :=
  if opt_truthy (_cached self) then tick e else e.

(** The object after [self._cached, self._valid_until = tok, expiry]. *)
Definition store (self : t C) (tok : option Token) (expiry : Q) : t C :=
  mk (host self) tok expiry (_clock_skew self) (sub self).


(** [n] calls of [token] in a row, results dropped. *)
Fixpoint token_calls (n : nat) (σ : t C * World) : t C * World :=
  match n with
  | O => σ
  | S k => token_calls k (token σ).2
  end.

End Vocabulary.


(** The two configuration errors of this module. *)
Definition missing_secret_error : Exn :=
  TokenProviderConfigError
    (Msg "You need to provide a client secret for the client credentials grant type.").

Definition refresh_page_error : Exn :=
  TokenProviderConfigError (Msg "Token is expired. Please refresh the web page.").


(** The form body as the specification words it: the grant type, and one
    [scope] field holding the scopes joined by spaces. *)
Definition documented_form_fields (scopes : list string) : list (string * string) :=
  [ ("grant_type", "client_credentials"); ("scope", space_join scopes) ].

(** ** A world to run the code in *)

Definition example_host : Host :=
  mkHost "example.palantirfoundry.com" "https://example.palantirfoundry.com".

(** [{"access_token": "T1", "expires_in": 3600}] and
    [{"error": "invalid_client"}] *)
Definition example_answer : gmap string json :=
  <["access_token" := JStr "T1"]> (<["expires_in" := JInt 3600]> ∅).

Definition refusal : gmap string json := <["error" := JStr "invalid_client"]> ∅.

(** The clock starts at 1000 and gains a second per reading; the token
    endpoint gives [example_answer]; neither streamlit nor flask is
    installed. *)
Definition example_env : Env :=
  mkEnv (fun n => inject_Z (1000 + Z.of_nat n)) 0
    (fun _ _ => Answer example_answer) []
    (fun _ _ => Answer ("U1", 5000%Q)) []
    ImportError ImportError.

Definition example_world : World := mkWorld example_env 0.

(** The same, with an endpoint that refuses the client. *)
Definition refusing_env : Env :=
  mkEnv (clock example_env) 0
    (fun _ _ => Answer refusal) []
    (oauth_client example_env) []
    ImportError ImportError.

Definition refusing_world : World := mkWorld refusing_env 0.

(** The client-credentials provider of the scenario, just built. *)
Definition example_oauth : OAuthTokenProvider.t :=
  CachedTokenProvider.fresh example_host
    (OAuthTokenProvider.mk client_credentials "abc" (Some "xyz") []).

(** The same asking for two scopes. *)
Definition two_scope_oauth : OAuthTokenProvider.t :=
  CachedTokenProvider.fresh example_host
    (OAuthTokenProvider.mk client_credentials "abc" (Some "xyz")
       ["compass:view"; "compass:edit"]).

(** A provider whose record, valid until 1005, is about to expire, and
    the refusing environment once that provider has read the clock and
    asked the endpoint. *)
Definition expiring_oauth : OAuthTokenProvider.t :=
  CachedTokenProvider.mk example_host (Some "T0") 1005 10
    (OAuthTokenProvider.mk client_credentials "abc" (Some "xyz") []).

Definition refused_env : Env :=
  log_http (OAuthTokenProvider.token_request expiring_oauth "xyz") (tick refusing_env).

(** An endpoint that issues the empty string as a token, and a provider
    that has cached one with an expiry far ahead. *)
Definition blank_env : Env :=
  mkEnv (clock example_env) 0
    (fun _ _ => Answer (<["access_token" := JStr ""]> (<["expires_in" := JInt 3600]> ∅))) []
    (oauth_client example_env) []
    ImportError ImportError.

Definition blank_oauth : OAuthTokenProvider.t :=
  CachedTokenProvider.mk example_host (Some "") 999999 10
    (OAuthTokenProvider.mk client_credentials "abc" (Some "xyz") []).

(** A flask request carrying the header, lower-cased on its way, seen by
    a clock that starts at 1000; what [__init__] builds there; and the same
    process more than an hour later, its clock at 5000. *)
Definition flask_env : Env :=
  mkEnv (clock example_env) 0 (token_endpoint example_env) []
    (oauth_client example_env) [] ImportError
    (Imported (Some [("Host", "app.example"); ("x-foundry-accesstoken", "H1")])).

Definition flask_provider : AppServiceTokenProvider.t :=
  CachedTokenProvider.mk example_host (Some "H1") (1000 + 3600) 10 AppServiceTokenProvider.mk.

Definition late_env : Env :=
  mkEnv (fun n => inject_Z (5000 + Z.of_nat n)) 1 (token_endpoint example_env) []
    (oauth_client example_env) [] ImportError (flask_headers flask_env).

(** The environment [n] readings of the clock later. *)
Definition later (n : nat) (e : Env) : Env :=
  mkEnv (clock e) (n + clock_reads e) (token_endpoint e) (http_log e)
    (oauth_client e) (oauth_log e) (streamlit_headers e) (flask_headers e).

(** A provider that holds ["T1"] until 4600, as [example_oauth] does after
    its first [token]. *)
Definition warm_oauth : OAuthTokenProvider.t :=
  CachedTokenProvider.mk example_host (Some "T1") 4600 10
    (OAuthTokenProvider.mk client_credentials "abc" (Some "xyz") []).

(** The two errors [OAuthTokenProvider._request_token] keeps for a
    provider it cannot serve: no secret, or a grant type without a branch. *)
Definition defensive_error (x : Exn) : bool :=
  match x with
  | AttributeError _ | NotImplementedError _ => true
  | _ => false
  end.

(** The call [get_user_credentials(...)] of the authorization-code branch. *)
Definition user_credentials_call (self : OAuthTokenProvider.t) : UserCredentialsCall :=
  mkUserCredentialsCall
    (OAuthTokenProvider.scopes (CachedTokenProvider.sub self))
    (domain (CachedTokenProvider.host self))
    (OAuthTokenProvider._client_id (CachedTokenProvider.sub self))
    (OAuthTokenProvider._client_secret (CachedTokenProvider.sub self))
    false.

(** An authorization-code provider, just built, and what it hands to the
    OAuth client. *)
Definition example_user_oauth : OAuthTokenProvider.t :=
  CachedTokenProvider.fresh example_host
    (OAuthTokenProvider.mk authorization_code "abc" None DEFAULT_OAUTH_SCOPES).

(** An answer that names a token and no lifetime, and an endpoint that
    gives it. *)
Definition partial_answer : gmap string json := <["access_token" := JStr "T1"]> ∅.

Definition partial_env : Env :=
  mkEnv (clock example_env) 0 (fun _ _ => Answer partial_answer) []
    (oauth_client example_env) [] ImportError ImportError.


(** What a key of [TOKEN_PROVIDER_MAPPING] stands for: one of the three
    classes of this module, or a class [x] that an entry point brings. *)
Inductive provider_class (X : Type) : Type :=
| JWTTokenProviderClass
| OAuthTokenProviderClass
| AppServiceTokenProviderClass
| EntryPointClass (x : X).
Arguments JWTTokenProviderClass {X}.
Arguments OAuthTokenProviderClass {X}.
Arguments AppServiceTokenProviderClass {X}.
Arguments EntryPointClass {X} x.

(** [{"jwt": ..., "oauth": ..., "app_service": ..., **entry_points}], for
    the dict [entry_points] that [entry_point_fdt_token_provider()] returns:
    the unpacked dict comes last and so wins over the keys before it. *)
Definition TOKEN_PROVIDER_MAPPING {X} (entry_points : gmap string X)
    : gmap string (provider_class X) :=
  (EntryPointClass <$> entry_points) ∪
  (<["jwt" := JWTTokenProviderClass]>
     (<["oauth" := OAuthTokenProviderClass]>
        (<["app_service" := AppServiceTokenProviderClass]> ∅))).

(** A request without headers, and the same once a provider holding
    ["J1"] has decorated it. *)
Definition bare_request : PreparedRequest :=
  mkPreparedRequest "GET" "https://example.palantirfoundry.com/api" ∅ None.

Definition decorated_request : PreparedRequest :=
  mkPreparedRequest "GET" "https://example.palantirfoundry.com/api"
    (CaseInsensitiveDict.of_dict [("authorization", "Bearer J1")]) None.

(** The place of a character in a string, and in the base64 alphabet:
    the digit that [b64_digit] maps there, if any. *)
Fixpoint str_index (c : ascii) (s : string) : option N :=
  match s with
  | EmptyString => None
  | String d rest => if Ascii.eqb c d then Some 0%N else N.succ <$> str_index c rest
  end.

Definition b64_index (c : ascii) : option N := str_index c b64_alphabet.

(** * Properties *)

(** ** Encodings *)

(** The test vectors of RFC 4648 and the credentials of the scenario. *)
Example b64encode_vectors :
  b64encode (latin1_bytes "") = "" /\
  b64encode (latin1_bytes "f") = "Zg==" /\
  b64encode (latin1_bytes "fo") = "Zm8=" /\
  b64encode (latin1_bytes "foo") = "Zm9v" /\
  b64encode (latin1_bytes "foob") = "Zm9vYg==" /\
  b64encode (latin1_bytes "fooba") = "Zm9vYmE=" /\
  b64encode (latin1_bytes "foobar") = "Zm9vYmFy" /\
  b64encode (latin1_bytes "abc:xyz") = "YWJjOnh5eg==".
Proof. repeat split. Qed.

Example str_lower_header :
  str_lower AppServiceTokenProvider.header = "x-foundry-accesstoken" /\
  str_lower "Authorization" = "authorization" /\
  str_lower "AUTHORIZATION" = "authorization".
Proof. repeat split. Qed.

(** ** Floats

    [round64] on the integers, where the statements below need it, and
    what [float_add] makes of equal rationals written differently. *)

Lemma Qred_inject_Z (z : Z) : Qred (inject_Z z) = inject_Z z.
Proof. apply Qcanon.Qred_identity. simpl. apply Z.gcd_1_r. Qed.

Lemma round64_comp (q q' : Q) : (q == q')%Q -> round64 q = round64 q'.
Proof. intros Heq. unfold round64. rewrite (Qred_complete q q' Heq). reflexivity. Qed.

Lemma inf_of_comp (q q' : Q) : (q == q')%Q -> inf_of q = inf_of q'.
Proof. intros Heq. unfold inf_of. rewrite Heq. reflexivity. Qed.

Lemma is_inf_comp (q q' : Q) : (q == q')%Q -> is_inf q = is_inf q'.
Proof. intros Heq. unfold is_inf. rewrite Heq. reflexivity. Qed.

Lemma to_float_comp (q q' : Q) : (q == q')%Q -> to_float q = to_float q'.
Proof.
  intros Heq. unfold to_float. rewrite (round64_comp q q' Heq), (inf_of_comp q q' Heq).
  reflexivity.
Qed.

Lemma float_add_comp (x y y' : Q) : (y == y')%Q -> float_add x y = float_add x y'.
Proof.
  intros Heq. unfold float_add.
  rewrite (is_inf_comp y y' Heq), (inf_of_comp y y' Heq).
  rewrite (to_float_comp (x + y) (x + y')); [reflexivity |].
  rewrite Heq. reflexivity.
Qed.

Lemma is_inf_inject_Z (z : Z) : Z.abs z < 2 ^ 1024 -> is_inf (inject_Z z) = false.
Proof.
  intros Hz. unfold is_inf. destruct (Qle_bool float_max (Qabs (inject_Z z))) eqn:Hle;
    [| reflexivity].
  apply Qle_bool_iff in Hle. unfold Qle, float_max in Hle. simpl in Hle. lia.
Qed.

Lemma round_half_even_one (x : Z) : round_half_even x 1 = x.
Proof.
  unfold round_half_even. rewrite Z.mod_1_r, Z.div_1_r. reflexivity.
Qed.

Lemma dyadic_scaled (z k : Z) :
  0 <= k -> dyadic (z * 2 ^ k) (- k) = inject_Z z.
Proof.
  intros Hk. rewrite <- Qred_inject_Z. unfold dyadic. apply Qred_complete.
  destruct (0 <=? - k) eqn:Hsign.
  - apply Z.leb_le in Hsign. assert (k = 0) as -> by lia. simpl.
    unfold Qeq. simpl. lia.
  - rewrite Z.opp_involutive. unfold Qeq. simpl.
    rewrite Z2Pos.id by (apply Z.pow_pos_nonneg; lia). lia.
Qed.


(** The logarithm of an integer. *)
Lemma floor_log2_integer (a : Z) : 0 < a -> floor_log2 a 1 = Z.log2 a.
Proof.
  intros Ha. unfold floor_log2. change (Z.log2 1) with 0. rewrite Z.sub_0_r.
  unfold scale_ratio. pose proof (Z.log2_nonneg a) as Hnn.
  destruct (0 <=? Z.log2 a) eqn:Hs; [| apply Z.leb_gt in Hs; lia].
  rewrite Z.mul_1_l.
  destruct (2 ^ Z.log2 a <=? a) eqn:Hle; [reflexivity |].
  apply Z.leb_gt in Hle. pose proof (Z.log2_spec a Ha). lia.
Qed.

(** What [round64] does to a non-zero integer. *)
Lemma round64_inject_Z (z : Z) :
  z <> 0 ->
  round64 (inject_Z z) =
    let E := Z.max (Z.log2 (Z.abs z) - 52) (-1074) in
    let (x, y) := scale_ratio (Z.abs z) 1 E in
    let m := round_half_even x y in
    if 2 ^ (1024 - E) <=? m then None else Some (dyadic (Z.sgn z * m) E).
Proof.
  intros Hz. unfold round64. rewrite Qred_inject_Z. simpl Qnum. simpl Qden.
  destruct (z =? 0) eqn:Hzero; [apply Z.eqb_eq in Hzero; lia |].
  rewrite floor_log2_integer by lia. reflexivity.
Qed.

Lemma round64_integer (z : Z) :
  Z.abs z < 2 ^ 53 -> round64 (inject_Z z) = Some (inject_Z z).
Proof.
  intros Hz. destruct (Z.eq_dec z 0) as [-> | Hzero]; [reflexivity |].
  rewrite round64_inject_Z by exact Hzero. cbv zeta.
  set (a := Z.abs z). assert (0 < a) as Ha by (subst a; lia).
  assert (0 <= Z.log2 a <= 52) as Hrange.
  { split; [apply Z.log2_nonneg |].
    assert (Z.log2 a < 53); [| lia]. apply Z.log2_lt_pow2; [exact Ha | exact Hz]. }
  set (k := 52 - Z.log2 a).
  assert (Z.max (Z.log2 a - 52) (-1074) = - k) as -> by (subst k; lia).
  assert (scale_ratio a 1 (- k) = (a * 2 ^ k, 1)) as ->.
  { unfold scale_ratio. destruct (0 <=? - k) eqn:Hs.
    - apply Z.leb_le in Hs. assert (k = 0) as -> by (subst k; lia).
      simpl. f_equal. lia.
    - rewrite Z.opp_involutive. reflexivity. }
  rewrite round_half_even_one.
  assert (0 <= k <= 52) as Hk by (subst k; lia).
  assert (a * 2 ^ k < 2 ^ (1024 - - k)) as Hsmall.
  { apply Z.lt_le_trans with (2 ^ 53 * 2 ^ k).
    - apply Z.mul_lt_mono_pos_r; [apply Z.pow_pos_nonneg; lia | exact Hz].
    - rewrite <- Z.pow_add_r by lia. apply Z.pow_le_mono_r; lia. }
  destruct (2 ^ (1024 - - k) <=? a * 2 ^ k) eqn:Hover.
  { apply Z.leb_le in Hover. lia. }
  f_equal. rewrite Z.mul_assoc. rewrite dyadic_scaled by lia.
  subst a. replace (Z.sgn z * Z.abs z) with z by lia. reflexivity.
Qed.







(** The sum of an integer float and a clock that reads an integer. *)
Lemma float_add_integer (a b : Z) (y : Q) :
  Z.abs a < 2 ^ 1024 -> Z.abs b < 2 ^ 1024 -> (y == inject_Z b)%Q ->
  float_add (inject_Z a) y = to_float (inject_Z (a + b)).
Proof.
  intros Ha Hb Hy. rewrite (float_add_comp _ y (inject_Z b) Hy).
  unfold float_add. rewrite !is_inf_inject_Z by assumption.
  apply to_float_comp. rewrite inject_Z_plus. reflexivity.
Qed.

(** Some sums as Python gives them: [0.1 + 0.2], the lifetime
    [9.99999999999999] added to the clock [1000.0], a lifetime of an hour,
    and the largest float, which the next integer already exceeds. *)
Example float_add_vectors :
  float_add (to_float (1 # 10)) (to_float (2 # 10))
    = 1351079888211149 # 4503599627370496 /\
  float_add (to_float (999999999999999 # 100000000000000)) 1000 = 1010%Q /\
  float_add 3600 1000 = 4600%Q /\
  round64 (inject_Z (2 ^ 1024 - 2 ^ 970 - 1)) = Some (inject_Z (2 ^ 1024 - 2 ^ 971)) /\
  round64 (inject_Z (2 ^ 1024 - 2 ^ 970)) = None /\
  to_float (inject_Z (10 ^ 400)) = float_max.
Proof. vm_compute. repeat split. Qed.

(** ** The guard and the shape of a [token] call *)

Lemma timestamp_lt_iff (a b : Q) : timestamp_lt a b = true <-> (a < b)%Q.
Proof.
  unfold timestamp_lt. rewrite negb_true_iff.
  destruct (Qle_bool b a) eqn:E.
  - apply Qle_bool_iff in E. split; [discriminate | intros Hlt].
    exfalso. exact (Qlt_not_le _ _ Hlt E).
  - split; [intros _ | reflexivity].
    apply Qnot_le_lt. intros Hle. apply Qle_bool_iff in Hle. congruence.
Qed.

Section Cached.

Context {C : Type} `{CachedTokenProvider.Subclass C}.

Import CachedTokenProvider.

Lemma stale_iff (self : t C) (e : Env) :
  stale self e = true <-> no_record self \/ expiring self e.
Proof.
  unfold stale, no_record, expiring.
  rewrite orb_true_iff, negb_true_iff, timestamp_lt_iff. reflexivity.
Qed.


(** One call of [token], case by case. *)
Lemma token_run (self : t C) (w : World) :
  token (self, w) =
    if stale self (env w) then
      match _request_token self (checked self (env w)) with
      | (Ok rec, e') =>
          (Ok rec.1, (store self rec.1 rec.2, mkWorld e' (S (acquire_calls w))))
      | (Raise x, e') =>
          (Raise x, (self, mkWorld e' (S (acquire_calls w))))
      end
    else (Ok (_cached self), (self, mkWorld (tick (env w)) (acquire_calls w))).
Proof.
  unfold token, token_cached, must_refresh, stale, checked, acquire, bind, get_self,
    set_self, io, zoom, time_time, ret, store; simpl.
  destruct (opt_truthy (_cached self)); simpl.
  - destruct (timestamp_lt (_valid_until self) (now (env w) + 10)); simpl; [| reflexivity].
    destruct (_request_token self (tick (env w))) as [[rec | x] e']; reflexivity.
  - destruct (_request_token self (env w)) as [[rec | x] e']; reflexivity.
Qed.

End Cached.

Section CachedClaims.

Context {C : Type} `{CachedTokenProvider.Subclass C}.

Import CachedTokenProvider.


Lemma acquire_calls_token (self : t C) (w : World) :
  acquire_calls (token (self, w)).2.2 =
    if stale self (env w) then S (acquire_calls w) else acquire_calls w.
Proof.
  rewrite token_run. destruct (stale self (env w)); [| reflexivity].
  destruct (_request_token self (checked self (env w))) as [[rec | x] e']; reflexivity.
Qed.


(** C2. When [_request_token] raises during [token], the caller gets that
    very exception and the object is what it was: [_cached] and
    [_valid_until] are neither overwritten nor cleared. The next call
    acquires again, as soon as no record was cached or the clock has not
    run backwards in between. *)
Theorem token_failure_keeps_cache (self : t C) (w : World) (x : Exn) (e' : Env) :
  no_record self \/ expiring self (env w) ->
  _request_token self (checked self (env w)) = (Raise x, e') ->
  let w' := mkWorld e' (S (acquire_calls w)) in
  token (self, w) = (Raise x, (self, w')) /\
  (no_record self \/ (now (env w) <= now e')%Q ->
   acquire_calls (token (self, w')).2.2 = S (acquire_calls w')).
Proof.
  intros Hs Hacq w'. split.
  - apply stale_iff in Hs. rewrite token_run, Hs, Hacq. reflexivity.
  - intros Hnext. rewrite acquire_calls_token.
    assert (stale self (env w') = true) as ->; [| reflexivity].
    apply stale_iff. destruct Hnext as [Hn | Hclock]; [by left |].
    destruct Hs as [Hn | Hexp]; [by left | right].
    unfold expiring in *. simpl.
    eapply Qlt_le_trans; [exact Hexp |].
    apply Qplus_le_l. exact Hclock.
Qed.

(** C9. [invalidate_cache] leaves no token and the expiry -1, whatever was
    cached, and touches nothing else; -1 is expired at every clock reading
    from the epoch on. The [token] call that follows makes exactly one
    call of [_request_token], without looking at the clock. *)
Theorem invalidate_then_token_acquires_once (self : t C) (w : World) :
  let cleared := invalidate_cache self in
  let run := token (cleared, w) in
  _cached cleared = None /\
  _valid_until cleared = (-1)%Q /\
  (forall e, (0 <= now e)%Q -> expiring cleared e) /\
  (host cleared, _clock_skew cleared, sub cleared) = (host self, _clock_skew self, sub self) /\
  acquire_calls run.2.2 = S (acquire_calls w) /\
  run =
    match _request_token cleared (env w) with
    | (Ok rec, e') =>
        (Ok rec.1, (store cleared rec.1 rec.2, mkWorld e' (S (acquire_calls w))))
    | (Raise x, e') => (Raise x, (cleared, mkWorld e' (S (acquire_calls w))))
    end.
Proof.
  cbv zeta. split; [reflexivity |]. split; [reflexivity |]. split.
  { intros e He. unfold expiring. simpl.
    apply Qlt_le_trans with (0 + 10)%Q; [reflexivity |].
    apply Qplus_le_l. exact He. }
  split; [reflexivity |]. split.
  - rewrite acquire_calls_token. reflexivity.
  - rewrite token_run. reflexivity.
Qed.

Lemma acquire_calls_token_calls (n : nat) (σ : t C * World) :
  (forall k, (k < n)%nat -> no_record (token_calls k σ).1) ->
  acquire_calls (token_calls n σ).2 = (n + acquire_calls σ.2)%nat.
Proof.
  revert σ. induction n as [| n IH]; intros σ Hblank; [reflexivity |].
  simpl. rewrite IH.
  - destruct σ as [self w]. rewrite acquire_calls_token.
    assert (stale self (env w) = true) as ->; [| simpl; lia].
    apply stale_iff. left. apply (Hblank 0%nat). lia.
  - intros k Hk. apply (Hblank (S k)). lia.
Qed.

(** C10. The presence test is the truthiness of the cached token: with the
    empty string cached, [token] takes the object for one without a record
    and acquires, whatever [_valid_until] says; and it goes on acquiring on
    every call for as long as the cached token stays empty. *)
Theorem empty_token_always_reacquires (self : t C) (w : World) (n : nat) :
  _cached self = Some "" ->
  no_record self /\
  acquire_calls (token (self, w)).2.2 = S (acquire_calls w) /\
  ((forall k, (k < n)%nat -> _cached (token_calls k (self, w)).1 = Some "") ->
   acquire_calls (token_calls n (self, w)).2 = (n + acquire_calls w)%nat).
Proof.
  intros Hempty.
  assert (no_record self) as Hn by (unfold no_record; rewrite Hempty; reflexivity).
  split; [exact Hn |]. split.
  - rewrite acquire_calls_token.
    assert (stale self (env w) = true) as ->; [| reflexivity].
    apply stale_iff. by left.
  - intros Hblank. apply (acquire_calls_token_calls n (self, w)).
    intros k Hk. unfold no_record. rewrite (Hblank k Hk). reflexivity.
Qed.

End CachedClaims.

Lemma token_failure_keeps_cache_witness :
  (no_record expiring_oauth \/ expiring expiring_oauth refusing_env) /\
  CachedTokenProvider._request_token expiring_oauth (checked expiring_oauth refusing_env)
    = (Raise (FoundryAPIError refusal), refused_env) /\
  token (expiring_oauth, refusing_world)
    = (Raise (FoundryAPIError refusal), (expiring_oauth, mkWorld refused_env 1)) /\
  (now refusing_env <= now refused_env)%Q /\
  acquire_calls (token (expiring_oauth, mkWorld refused_env 1)).2.2 = 2%nat.
Proof.
  assert (no_record expiring_oauth \/ expiring expiring_oauth refusing_env) as Hs.
  { right. unfold expiring, Qlt. simpl. lia. }
  assert (CachedTokenProvider._request_token expiring_oauth
            (checked expiring_oauth refusing_env)
          = (Raise (FoundryAPIError refusal), refused_env)) as Hacq.
  { reflexivity. }
  assert (now refusing_env <= now refused_env)%Q as Hclock.
  { unfold Qle. simpl. lia. }
  destruct (token_failure_keeps_cache expiring_oauth refusing_world _ _ Hs Hacq)
    as [Hraise Hnext].
  split; [exact Hs |]. split; [exact Hacq |]. split; [exact Hraise |].
  split; [exact Hclock |]. apply Hnext. right. exact Hclock.
Defined.

Lemma empty_token_always_reacquires_witness :
  CachedTokenProvider._cached blank_oauth = Some "" /\
  no_record blank_oauth /\
  acquire_calls (token (blank_oauth, mkWorld blank_env 0)).2.2 = 1%nat /\
  acquire_calls (token_calls 3 (blank_oauth, mkWorld blank_env 0)).2 = 3%nat.
Proof.
  assert (CachedTokenProvider._cached blank_oauth = Some "") as Hempty by reflexivity.
  destruct (empty_token_always_reacquires blank_oauth (mkWorld blank_env 0) 3 Hempty)
    as (Hn & Hone & Hall).
  split; [exact Hempty |]. split; [exact Hn |]. split; [exact Hone |].
  apply Hall. intros k Hk.
  destruct k as [| [| [| k]]]; [reflexivity | reflexivity | reflexivity | lia].
Defined.

(** ** The client-credentials exchange *)

Section ClientCredentials.

Import CachedTokenProvider OAuthTokenProvider.

Variable self : OAuthTokenProvider.t.
Variable secret : string.
Variable e : Env.

Hypothesis Hgrant : grant_type (sub self) = client_credentials.
Hypothesis Hsecret : _client_secret (sub self) = Some secret.

Lemma client_credentials_answered (body : gmap string json) :
  token_endpoint e (length (http_log e)) (token_request self secret) = Answer body ->
  _request_token self e =
    (if dict_contains "error" body then raise (FoundryAPIError body)
     else
       access_token <- dict_getitem body "access_token" ;;
       expires_in <- dict_getitem body "expires_in" ;;
       t0 <- time_time ;;
       expiry <- add_float expires_in t0 ;;
       tok <- as_token access_token ;;
       ret (tok, expiry)) (log_http (token_request self secret) e).
Proof.
  intros Hanswer.
  unfold _request_token, OAuthTokenProvider._request_token.
  rewrite Hgrant, Hsecret. simpl.
  unfold bind at 1. unfold requests_request_json. rewrite Hanswer. reflexivity.
Qed.



(** C4, as the code has it. Every client-credentials acquisition sends one
    request: a POST to [{host}/multipass/api/oauth2/token] with the content
    type [application/x-www-form-urlencoded], the header [Authorization]
    made of ["Basic "] and the base64 of the Latin-1 bytes of
    [client_id:client_secret], and a timeout of 30 seconds. Its data are
    [grant_type=client_credentials] and the scope list itself, which goes
    out as one [scope] field per scope. *)
Theorem client_credentials_request :
  exists c : HttpCall,
    http_log (CachedTokenProvider._request_token self e).2 = (http_log e ++ [c])%list /\
    call_method c = "POST" /\
    call_url c = host_url (host self) ++ "/multipass/api/oauth2/token" /\
    call_headers c =
      [ ("Content-Type", "application/x-www-form-urlencoded");
        ("Authorization",
         "Basic " ++ b64encode (latin1_bytes (_client_id (sub self) ++ ":" ++ secret))) ] /\
    call_timeout c = 30 /\
    call_data c =
      [ ("grant_type", FormStr "client_credentials");
        ("scope", FormList (scopes (sub self))) ] /\
    encode_params (call_data c) =
      ("grant_type", "client_credentials") :: ((fun s => ("scope", s)) <$> scopes (sub self)).
Proof.
  exists (token_request self secret).
  split; [| repeat split].
  - change (CachedTokenProvider._request_token self e) with (_request_token self e).
    unfold _request_token. rewrite Hgrant, Hsecret. simpl.
    unfold bind, requests_request_json.
    destruct (result_of_reply _) as [body | x]; [| reflexivity].
    destruct (dict_contains "error" body); [reflexivity |].
    unfold dict_getitem.
    destruct (body !! "access_token") as [a |]; [| reflexivity].
    destruct (body !! "expires_in") as [x |]; [| reflexivity].
    destruct x, a; simpl; unfold float_of_int, bind; try destruct (round64 _); reflexivity.
  - unfold encode_params. simpl. rewrite app_nil_r. reflexivity.
Qed.

End ClientCredentials.


(** The endpoint's refusal comes back as the API error, payload included. *)
Example client_credentials_refused :
  (CachedTokenProvider._request_token example_oauth refusing_env).1
    = Raise (FoundryAPIError refusal).
Proof. reflexivity. Qed.

(** An answer with neither shape is a [KeyError]. *)
Example client_credentials_empty_answer :
  (CachedTokenProvider._request_token example_oauth
     (mkEnv (clock example_env) 0 (fun _ _ => Answer ∅) [] (oauth_client example_env) []
        ImportError ImportError)).1
    = Raise (KeyError "access_token").
Proof. reflexivity. Qed.

Lemma client_credentials_request_witness :
  OAuthTokenProvider.grant_type (CachedTokenProvider.sub two_scope_oauth) = client_credentials /\
  OAuthTokenProvider._client_secret (CachedTokenProvider.sub two_scope_oauth) = Some "xyz" /\
  exists c : HttpCall,
    http_log (CachedTokenProvider._request_token two_scope_oauth example_env).2
      = (http_log example_env ++ [c])%list /\
    call_method c = "POST" /\
    call_url c = "https://example.palantirfoundry.com/multipass/api/oauth2/token" /\
    call_headers c =
      [ ("Content-Type", "application/x-www-form-urlencoded");
        ("Authorization", "Basic YWJjOnh5eg==") ] /\
    call_timeout c = 30 /\
    call_data c =
      [ ("grant_type", FormStr "client_credentials");
        ("scope", FormList ["compass:view"; "compass:edit"]) ] /\
    encode_params (call_data c) =
      [ ("grant_type", "client_credentials");
        ("scope", "compass:view"); ("scope", "compass:edit") ].
Proof.
  split; [reflexivity |]. split; [reflexivity |].
  exact (client_credentials_request two_scope_oauth "xyz" example_env eq_refl eq_refl).
Defined.

(** C4, as the specification words it, fails: with two scopes the body has
    two [scope] fields, not one field holding both joined by a space. *)
Lemma scope_list_is_not_space_joined :
  exists c : HttpCall,
    http_log (CachedTokenProvider._request_token two_scope_oauth example_env).2 = [c] /\
    encode_params (call_data c) =
      [ ("grant_type", "client_credentials");
        ("scope", "compass:view"); ("scope", "compass:edit") ] /\
    documented_form_fields (OAuthTokenProvider.scopes (CachedTokenProvider.sub two_scope_oauth)) =
      [ ("grant_type", "client_credentials"); ("scope", "compass:view compass:edit") ] /\
    encode_params (call_data c) <>
      documented_form_fields (OAuthTokenProvider.scopes (CachedTokenProvider.sub two_scope_oauth)).
Proof.
  exists (OAuthTokenProvider.token_request two_scope_oauth "xyz").
  repeat split. discriminate.
Qed.

(** With the default, empty, scope list no [scope] field is sent at all. *)
Example no_scope_field_by_default :
  encode_params (call_data (OAuthTokenProvider.token_request example_oauth "xyz"))
    = [ ("grant_type", "client_credentials") ] /\
  documented_form_fields [] = [ ("grant_type", "client_credentials"); ("scope", "") ].
Proof. split; reflexivity. Qed.

(** With a single scope the two readings agree. *)
Lemma single_scope_agrees (scope : string) :
  encode_params [ ("grant_type", FormStr "client_credentials"); ("scope", FormList [scope]) ]
    = documented_form_fields [scope].
Proof. reflexivity. Qed.

(** ** Request decoration *)

Lemma ci_get_setitem (d : CaseInsensitiveDict.t) (key value name : string) :
  str_lower name = str_lower key ->
  CaseInsensitiveDict.get (CaseInsensitiveDict.__setitem__ d key value) name = Some value.
Proof.
  intros Hname. unfold CaseInsensitiveDict.get, CaseInsensitiveDict.__setitem__.
  rewrite Hname, lookup_insert_eq. reflexivity.
Qed.

Lemma ci_setdefault_present (d : CaseInsensitiveDict.t) (key default : string) :
  is_Some (CaseInsensitiveDict.get d key) ->
  CaseInsensitiveDict.setdefault d key default = d.
Proof.
  intros [v Hv]. unfold CaseInsensitiveDict.setdefault. rewrite Hv. reflexivity.
Qed.

Lemma ci_setdefault_other (d : CaseInsensitiveDict.t) (key default k : string) :
  k <> str_lower key ->
  CaseInsensitiveDict.setdefault d key default !! k = d !! k.
Proof.
  intros Hk. unfold CaseInsensitiveDict.setdefault.
  destruct (CaseInsensitiveDict.get d key); [reflexivity |].
  unfold CaseInsensitiveDict.__setitem__. rewrite lookup_insert_ne; [reflexivity | congruence].
Qed.

Section Decoration.

Context {P : Type} `{TokenProviderClass P}.

(** C5. [requests_auth_handler] first asks for the token; if that raises,
    the request is as it was. Otherwise it hands back the request with the
    header [authorization] set to ["Bearer "] followed by the token (by
    the word [None] for a provider that returns [None]) when no header of
    that name, in any capitalisation, was there, and with the headers
    as they were when one was; no other header and no other part of the
    request changes. *)
Theorem requests_auth_handler_sets_bearer (self : P) (w : World) (r : PreparedRequest) :
  let run := TokenProvider.requests_auth_handler (self, w, r) in
  match token (self, w) with
  | (Raise x, σ) => run = (Raise x, (σ, r))
  | (Ok tok, σ) =>
      let r' := run.2.2 in
      let bearer :=
        match tok with
        | Some t => "Bearer " ++ t
        | None => "Bearer None"
        end in
      run.1 = Ok r' /\ run.2.1 = σ /\
      method r' = method r /\ url r' = url r /\ body r' = body r /\
      (CaseInsensitiveDict.get (headers r) "authorization" = None ->
       headers r' !! "authorization" = Some ("authorization", bearer) /\
       forall name, str_lower name = "authorization" ->
         CaseInsensitiveDict.get (headers r') name = Some bearer) /\
      (forall name, str_lower name = "authorization" ->
         is_Some (CaseInsensitiveDict.get (headers r) name) -> headers r' = headers r) /\
      (forall key, key <> "authorization" -> headers r' !! key = headers r !! key)
  end.
Proof.
  cbv zeta.
  unfold TokenProvider.requests_auth_handler, with_request, bind, zoom, get, put, ret.
  simpl. destruct (token (self, w)) as [[tok | x] σ]; simpl; [| reflexivity].
  split; [reflexivity |]. split; [reflexivity |].
  split; [reflexivity |]. split; [reflexivity |]. split; [reflexivity |].
  split; [| split].
  - intros Habsent.
    unfold CaseInsensitiveDict.setdefault. rewrite Habsent.
    split.
    + unfold CaseInsensitiveDict.__setitem__. simpl. rewrite lookup_insert_eq.
      destruct tok; reflexivity.
    + intros name Hname. rewrite ci_get_setitem by (rewrite Hname; reflexivity).
      destruct tok; reflexivity.
  - intros name Hname Hpresent. apply ci_setdefault_present.
    unfold CaseInsensitiveDict.get in *. rewrite Hname in Hpresent. exact Hpresent.
  - intros key Hkey. apply ci_setdefault_other. exact Hkey.
Qed.

End Decoration.

(** A header the caller wrote as [Authorization] stays; a request without
    one gets the bearer token of a static provider. *)
Example caller_header_is_kept :
  let jwt := JWTTokenProvider.__init__ example_host "J1" in
  let r := mkPreparedRequest "GET" "https://example.palantirfoundry.com/api"
             (CaseInsensitiveDict.of_dict [("Authorization", "Basic abc"); ("Accept", "*/*")])
             None in
  (TokenProvider.requests_auth_handler (jwt, example_world, r)).1 = Ok r.
Proof. reflexivity. Qed.

Example bearer_header_is_set :
  let jwt := JWTTokenProvider.__init__ example_host "J1" in
  let r := mkPreparedRequest "GET" "https://example.palantirfoundry.com/api"
             (CaseInsensitiveDict.of_dict [("Accept", "*/*")]) None in
  (TokenProvider.requests_auth_handler (jwt, example_world, r)).1
    = Ok (mkPreparedRequest "GET" "https://example.palantirfoundry.com/api"
            (CaseInsensitiveDict.of_dict [("Accept", "*/*"); ("authorization", "Bearer J1")])
            None).
Proof. reflexivity. Qed.

(** ** Construction of the OAuth provider *)

Section OAuthConstruction.

Import CachedTokenProvider OAuthTokenProvider.

Variable host : Host.
Variable client_id : string.
Variable w : World.

(** C6. With the client-credentials grant type and no client secret,
    [__init__] raises the configuration error and the world is untouched:
    nothing was acquired, nothing was sent. With the other grant type,
    authorization code, the missing secret is accepted and the provider
    is built. An unknown grant type is refused by the enum itself. *)
Theorem init_without_secret (g : option grant_arg) (scopes : option (list string)) :
  match resolve_grant_type g with
  | Ok client_credentials =>
      __init__ host client_id None g scopes w = (Raise missing_secret_error, w)
  | Ok authorization_code =>
      exists self : OAuthTokenProvider.t,
        __init__ host client_id None g scopes w = (Ok self, w) /\
        grant_type (sub self) = authorization_code /\
        _client_secret (sub self) = None /\
        _cached self = None
  | Raise x => __init__ host client_id None g scopes w = (Raise x, w)
  end.
Proof.
  unfold __init__, bind, of_result.
  destruct (resolve_grant_type g) as [[|] | x]; simpl; eauto 10.
Qed.

(** C8. Built without a scope list, an authorization-code provider asks
    for the seven built-in scopes, in their order, and a client-credentials
    provider for none. A scope list that is given is the one used. *)
Theorem init_scopes (secret : option string) (g : option grant_arg) :
  DEFAULT_OAUTH_SCOPES =
    [ "offline_access"; "compass:view"; "compass:edit"; "compass:discover";
      "api:write-data"; "api:read-data"; "build2:run-build-using-service" ] /\
  match resolve_grant_type g, secret with
  | Ok client_credentials, None =>
      forall scopes, __init__ host client_id secret g scopes w = (Raise missing_secret_error, w)
  | Ok m, _ =>
      forall scopes, exists self : OAuthTokenProvider.t,
        __init__ host client_id secret g scopes w = (Ok self, w) /\
        grant_type (sub self) = m /\
        OAuthTokenProvider.scopes (sub self) =
          match scopes, m with
          | Some given, _ => given
          | None, authorization_code => DEFAULT_OAUTH_SCOPES
          | None, client_credentials => []
          end
  | Raise x, _ =>
      forall scopes, __init__ host client_id secret g scopes w = (Raise x, w)
  end.
Proof.
  split; [reflexivity |].
  unfold __init__, bind, of_result.
  destruct (resolve_grant_type g) as [[|] | x]; simpl.
  - intros scopes. eexists. split; [reflexivity |]. split; [reflexivity |].
    destruct scopes; reflexivity.
  - destruct secret as [s |]; simpl.
    + intros scopes. eexists. split; [reflexivity |]. split; [reflexivity |].
      destruct scopes as [[| ? ?] |]; reflexivity.
    + reflexivity.
  - destruct secret; reflexivity.
Qed.

End OAuthConstruction.

(** The grant types [__init__] accepts: nothing or the empty string stand
    for the authorization code, a member stands for itself, a string for
    the member of that value. *)
Example resolve_grant_type_cases :
  OAuthTokenProvider.resolve_grant_type None = Ok authorization_code /\
  OAuthTokenProvider.resolve_grant_type (Some (OAuthTokenProvider.Value "")) = Ok authorization_code /\
  OAuthTokenProvider.resolve_grant_type (Some (OAuthTokenProvider.Value "client_credentials"))
    = Ok client_credentials /\
  OAuthTokenProvider.resolve_grant_type (Some (OAuthTokenProvider.Member client_credentials))
    = Ok client_credentials /\
  OAuthTokenProvider.resolve_grant_type (Some (OAuthTokenProvider.Value "implicit"))
    = Raise (ValueError "implicit").
Proof. repeat split. Qed.

Example init_client_credentials_without_secret :
  OAuthTokenProvider.__init__ example_host "abc" None
    (Some (OAuthTokenProvider.Value "client_credentials")) None example_world
  = (Raise missing_secret_error, example_world).
Proof. reflexivity. Qed.

(** ** The app-service provider *)

Section AppService.

Import CachedTokenProvider AppServiceTokenProvider.










End AppService.

(** The header of a flask request is found whatever its capitalisation,
    and gives a record for one hour. *)
Example app_service_init_flask :
  AppServiceTokenProvider.__init__ example_host (mkWorld flask_env 0)
    = (Ok flask_provider, mkWorld (tick flask_env) 0).
Proof. reflexivity. Qed.

Example app_service_init_nothing :
  (AppServiceTokenProvider.__init__ example_host example_world).1
    = Raise (TokenProviderConfigError
               (Msg "Could not get Foundry token from flask/dash/streamlit headers.")).
Proof. reflexivity. Qed.

Example app_service_token_within_the_hour :
  (token (flask_provider, mkWorld (tick flask_env) 0)).1 = Ok (Some "H1").
Proof. reflexivity. Qed.

Example app_service_token_after_the_hour :
  token (flask_provider, mkWorld late_env 0)
    = (Raise refresh_page_error, (flask_provider, mkWorld (tick late_env) 1)).
Proof. reflexivity. Qed.

(** ** The scenario of the client-credentials provider

    A first [token] asks the endpoint and returns ["T1"]; a second one is
    served from the cache; after [invalidate_cache] the endpoint is asked
    again. *)
Example client_credentials_scenario :
  let first := token (example_oauth, example_world) in
  let second := token first.2 in
  let third := token (CachedTokenProvider.invalidate_cache second.2.1, second.2.2) in
  first.1 = Ok (Some "T1") /\
  CachedTokenProvider._valid_until first.2.1 = (3600 + 1000)%Q /\
  length (http_log (env first.2.2)) = 1%nat /\
  second.1 = Ok (Some "T1") /\
  length (http_log (env second.2.2)) = 1%nat /\
  third.1 = Ok (Some "T1") /\
  length (http_log (env third.2.2)) = 2%nat /\
  acquire_calls third.2.2 = 2%nat.
Proof. cbv zeta. repeat split. Qed.

(** * Further properties of the module *)

(** ** The cache between two acquisitions *)

Lemma timestamp_lt_false_iff (a b : Q) : timestamp_lt a b = false <-> (b <= a)%Q.
Proof.
  unfold timestamp_lt. rewrite negb_false_iff. apply Qle_bool_iff.
Qed.

Lemma later_tick (n : nat) (e : Env) : later n (tick e) = later (S n) e.
Proof.
  unfold later, tick. simpl. f_equal. lia.
Qed.

Section CacheHits.

Context {C : Type} `{CachedTokenProvider.Subclass C}.

Import CachedTokenProvider.

(** A call that finds a truthy token valid for ten more seconds is a pure
    cache hit: one reading of the clock and nothing else. *)
Lemma token_hit (self : t C) (w : World) :
  opt_truthy (_cached self) = true ->
  (now (env w) + 10 <= _valid_until self)%Q ->
  token (self, w) = (Ok (_cached self), (self, mkWorld (tick (env w)) (acquire_calls w))).
Proof.
  intros Htruthy Hvalid. rewrite token_run.
  assert (stale self (env w) = false) as ->; [| reflexivity].
  unfold stale. rewrite Htruthy. simpl. by apply timestamp_lt_false_iff.
Qed.

Lemma token_calls_hits (n : nat) (self : t C) (w : World) :
  opt_truthy (_cached self) = true ->
  (forall k, (k < n)%nat ->
     (clock (env w) (k + clock_reads (env w)) + 10 <= _valid_until self)%Q) ->
  token_calls n (self, w) = (self, mkWorld (later n (env w)) (acquire_calls w)).
Proof.
  intros Htruthy. revert w. induction n as [| n IH]; intros w Hvalid.
  - destruct w as [[] ?]. reflexivity.
  - simpl. rewrite token_hit; [| exact Htruthy | apply (Hvalid 0%nat); lia]. simpl.
    rewrite IH.
    + simpl. rewrite later_tick. reflexivity.
    + intros k Hk. simpl. replace (k + S (clock_reads (env w)))%nat
        with (S k + clock_reads (env w))%nat by lia.
      apply Hvalid. lia.
Qed.

(** X1. While the cached token is non-empty and every reading of the clock
    stays ten seconds short of [_valid_until], any number of [token] calls
    in a row return the cached token, acquire nothing and leave the object
    as it is; all they do is read the clock once each. *)
Theorem token_calls_within_validity (n : nat) (self : t C) (w : World) :
  opt_truthy (_cached self) = true ->
  (forall k, (k < n)%nat ->
     (clock (env w) (k + clock_reads (env w)) + 10 <= _valid_until self)%Q) ->
  token_calls n (self, w) = (self, mkWorld (later n (env w)) (acquire_calls w)) /\
  forall k, (k < n)%nat -> (token (token_calls k (self, w))).1 = Ok (_cached self).
Proof.
  intros Htruthy Hvalid. split; [by apply token_calls_hits |].
  intros k Hk. rewrite token_calls_hits; [| exact Htruthy |].
  - rewrite token_hit; [reflexivity | exact Htruthy |]. apply Hvalid. exact Hk.
  - intros j Hj. apply Hvalid. lia.
Qed.

(** X2. Whatever [token] does, it leaves [host], [_clock_skew] and the
    attributes of the subclass alone; and when it returns, what it returns
    is exactly what the object caches from then on. That value is [None]
    only when the acquisition of this very call returned [None] for a
    token: a hit never gives [None]. *)
Theorem token_returns_what_it_caches (self : t C) (w : World) :
  let run := token (self, w) in
  host run.2.1 = host self /\
  _clock_skew run.2.1 = _clock_skew self /\
  sub run.2.1 = sub self /\
  forall v : option Token, run.1 = Ok v ->
    v = _cached run.2.1 /\
    (v = None ->
     (no_record self \/ expiring self (env w)) /\
     exists expiry, (_request_token self (checked self (env w))).1 = Ok (None, expiry)).
Proof.
  cbv zeta. rewrite token_run. destruct (stale self (env w)) eqn:Hs.
  - apply stale_iff in Hs.
    destruct (_request_token self (checked self (env w))) as [[rec | x] e']; simpl.
    + split; [done |]. split; [done |]. split; [done |].
      intros v [= <-]. split; [done |]. intros Hnone. split; [exact Hs |].
      exists rec.2. destruct rec as [tok expiry]. simpl in *. by subst tok.
    + split; [done |]. split; [done |]. split; [done |]. discriminate.
  - simpl. split; [done |]. split; [done |]. split; [done |].
    intros v [= <-]. split; [done |]. intros Hnone. exfalso.
    unfold stale in Hs. apply orb_false_iff in Hs as [Ht _].
    apply negb_false_iff in Ht. rewrite Hnone in Ht. discriminate.
Qed.

End CacheHits.

Lemma token_calls_within_validity_witness :
  opt_truthy (CachedTokenProvider._cached warm_oauth) = true /\
  token_calls 3 (warm_oauth, example_world) = (warm_oauth, mkWorld (later 3 example_env) 0) /\
  (token (token_calls 2 (warm_oauth, example_world))).1 = Ok (Some "T1").
Proof.
  assert (opt_truthy (CachedTokenProvider._cached warm_oauth) = true) as Htruthy
    by reflexivity.
  assert (forall k, (k < 3)%nat ->
    (clock (env example_world) (k + clock_reads (env example_world)) + 10
     <= CachedTokenProvider._valid_until warm_oauth)%Q) as Hvalid.
  { intros k Hk. destruct k as [| [| [| k]]]; [| | | lia]; unfold Qle; simpl; lia. }
  destruct (token_calls_within_validity 3 warm_oauth example_world Htruthy Hvalid)
    as [Hstate Hhits].
  split; [exact Htruthy |]. split; [exact Hstate |].
  apply (Hhits 2%nat). lia.
Defined.

(** ** The two branches of the OAuth provider *)

Section ClientCredentialsAnswers.

Import CachedTokenProvider OAuthTokenProvider.

Variable self : OAuthTokenProvider.t.
Variable secret : string.
Variable e : Env.

Hypothesis Hgrant : grant_type (sub self) = client_credentials.
Hypothesis Hsecret : _client_secret (sub self) = Some secret.

(** What an acquisition does to the environment, whatever comes back: the
    request is logged, and the clock is read once or not at all. *)
Lemma client_credentials_env :
  let sent := log_http (token_request self secret) e in
  (_request_token self e).2 = sent \/ (_request_token self e).2 = tick sent.
Proof.
  cbv zeta. unfold _request_token. rewrite Hgrant, Hsecret. simpl.
  unfold bind, requests_request_json.
  destruct (result_of_reply _) as [body | x]; [| by left].
  destruct (dict_contains "error" body); [by left |].
  unfold dict_getitem.
  destruct (body !! "access_token") as [a |]; [| by left].
  destruct (body !! "expires_in") as [x |]; [| by left].
  destruct x, a; simpl; unfold float_of_int, bind; try destruct (round64 _); by right.
Qed.

(** X3. An answer without [error] that is not a success answer ends the
    exchange with the exception of the first thing that is missing:
    [KeyError] for [access_token], then [KeyError] for [expires_in] (both
    before the clock is read), then [TypeError] for an [expires_in] that
    is not a number (after the clock was read). A boolean [expires_in]
    counts as a number, 1 or 0 seconds, added to the clock as a float is
    (exactly, where the clock reads an integer below [2 ^ 53 - 1]). An
    [access_token] that is [null] is no error: the exchange returns [None]
    for a token. *)
Theorem client_credentials_malformed_answer (body : gmap string json) :
  token_endpoint e (length (http_log e)) (token_request self secret) = Answer body ->
  body !! "error" = None ->
  let run := CachedTokenProvider._request_token self e in
  let sent := log_http (token_request self secret) e in
  (body !! "access_token" = None -> run = (Raise (KeyError "access_token"), sent)) /\
  (forall a, body !! "access_token" = Some a -> body !! "expires_in" = None ->
     run = (Raise (KeyError "expires_in"), sent)) /\
  (forall a x, body !! "access_token" = Some a -> body !! "expires_in" = Some x ->
     match x with
     | JInt _ | JFloat _ | JBool _ => True
     | _ => run = (Raise (TypeError x), tick sent)
     end) /\
  (forall tok b, body !! "access_token" = Some (JStr tok) ->
     body !! "expires_in" = Some (JBool b) ->
     run = (Ok (Some tok, float_add (if b then 1 else 0) (now e)), tick sent) /\
     forall t : Z, (now e == inject_Z t)%Q -> Z.abs t < 2 ^ 53 - 1 ->
       run = (Ok (Some tok, inject_Z ((if b then 1 else 0) + t)), tick sent)) /\
  (forall n : Z, body !! "access_token" = Some JNull ->
     body !! "expires_in" = Some (JInt n) -> Z.abs n < 2 ^ 53 ->
     run = (Ok (None, float_add (inject_Z n) (now e)), tick sent)).
Proof.
  intros Hanswer Herr run sent. subst run sent.
  change (CachedTokenProvider._request_token self e) with (_request_token self e).
  rewrite (client_credentials_answered self secret e Hgrant Hsecret body Hanswer).
  unfold dict_contains. rewrite Herr.
  rewrite bool_decide_eq_false_2 by (intros [? ?]; discriminate).
  unfold bind, dict_getitem.
  split; [intros ->; reflexivity |].
  split; [intros a -> ->; reflexivity |].
  split; [intros a x -> ->; destruct x; try exact I; reflexivity |].
  split.
  - intros tok b -> ->. split; [reflexivity |].
    intros t Hclock Ht.
    assert (Z.abs t < 2 ^ 1024) as Ht'.
    { apply Z.lt_trans with (2 ^ 53); [lia | reflexivity]. }
    unfold time_time, add_float, as_token, ret. simpl. fold (now e).
    destruct b.
    + change 1%Q with (inject_Z 1).
      rewrite (float_add_integer 1 t (now e) eq_refl Ht' Hclock).
      unfold to_float. rewrite round64_integer by lia. reflexivity.
    + change 0%Q with (inject_Z 0).
      rewrite (float_add_integer 0 t (now e) eq_refl Ht' Hclock).
      unfold to_float. rewrite round64_integer by lia. reflexivity.
  - intros n -> -> Hn. simpl. unfold float_of_int.
    rewrite (round64_integer n Hn). reflexivity.
Qed.

(** X4. A client-credentials acquisition talks to the token endpoint
    only: it sends exactly one request, never calls the interactive OAuth
    client, and reads the clock at most once. *)
Theorem client_credentials_touches_only_http :
  let after := (CachedTokenProvider._request_token self e).2 in
  length (http_log after) = S (length (http_log e)) /\
  oauth_log after = oauth_log e /\
  (clock_reads after = clock_reads e \/ clock_reads after = S (clock_reads e)) /\
  clock after = clock e /\
  token_endpoint after = token_endpoint e.
Proof.
  cbv zeta.
  change (CachedTokenProvider._request_token self e) with (_request_token self e).
  destruct client_credentials_env as [-> | ->]; simpl;
    rewrite length_app; simpl; repeat split; (lia || tauto).
Qed.

End ClientCredentialsAnswers.

Lemma client_credentials_malformed_answer_witness :
  OAuthTokenProvider.grant_type (CachedTokenProvider.sub example_oauth) = client_credentials /\
  partial_answer !! "error" = None /\
  CachedTokenProvider._request_token example_oauth partial_env
  = (Raise (KeyError "expires_in"),
     log_http (OAuthTokenProvider.token_request example_oauth "xyz") partial_env).
Proof.
  assert (partial_answer !! "error" = None) as Herr by reflexivity.
  assert (token_endpoint partial_env (length (http_log partial_env))
            (OAuthTokenProvider.token_request example_oauth "xyz") = Answer partial_answer)
    as Hanswer by reflexivity.
  split; [reflexivity |]. split; [exact Herr |].
  destruct (client_credentials_malformed_answer example_oauth "xyz" partial_env
              eq_refl eq_refl partial_answer Hanswer Herr)
    as (_ & Hmissing & _).
  apply (Hmissing (JStr "T1")); reflexivity.
Defined.

Lemma client_credentials_touches_only_http_witness :
  OAuthTokenProvider.grant_type (CachedTokenProvider.sub example_oauth) = client_credentials /\
  OAuthTokenProvider._client_secret (CachedTokenProvider.sub example_oauth) = Some "xyz" /\
  length (http_log (CachedTokenProvider._request_token example_oauth example_env).2) = 1%nat /\
  oauth_log (CachedTokenProvider._request_token example_oauth example_env).2 = [].
Proof.
  split; [reflexivity |]. split; [reflexivity |].
  destruct (client_credentials_touches_only_http example_oauth "xyz" example_env
              eq_refl eq_refl) as (Hhttp & Hoauth & _).
  split; [exact Hhttp | exact Hoauth].
Defined.

Section OAuthBuilt.

Import CachedTokenProvider OAuthTokenProvider.

(** What a provider with a secret for its client-credentials grant, or with
    the authorization-code grant, can raise from [_request_token]. *)
Lemma served_provider_raises (self : OAuthTokenProvider.t) (e : Env) (x : Exn) :
  (grant_type (sub self) = client_credentials -> is_Some (_client_secret (sub self))) ->
  (_request_token self e).1 = Raise x ->
  defensive_error x = false.
Proof.
  intros Hserved. unfold _request_token.
  destruct (grant_type (sub self)) eqn:Hgrant; simpl.
  - unfold bind, get_user_credentials. simpl.
    destruct (oauth_client e (length (oauth_log e)) _) as [? | what]; simpl;
      intros [= <-]; reflexivity.
  - destruct (Hserved eq_refl) as [secret ->].
    unfold bind, requests_request_json.
    destruct (token_endpoint e _ _) as [body | what]; simpl;
      [| intros [= <-]; reflexivity].
    destruct (dict_contains "error" body); simpl; [intros [= <-]; reflexivity |].
    unfold dict_getitem.
    destruct (body !! "access_token") as [a |]; simpl; [| intros [= <-]; reflexivity].
    destruct (body !! "expires_in") as [v |]; simpl; [| intros [= <-]; reflexivity].
    destruct v, a; simpl; unfold float_of_int, bind; try destruct (round64 _);
      simpl; intros [= <-]; reflexivity.
Qed.

(** X6. A provider that [__init__] has built is the one asked for (host,
    client id, secret), starts with an empty cache, and carries a secret
    whenever its grant type is client credentials; the construction leaves
    the world alone. So [_request_token] of a provider as built never
    ends in one of its two defensive errors, the [AttributeError] for a
    missing secret and the [NotImplementedError] for an unknown grant
    type. *)
Theorem init_builds_served_provider (host : Host) (client_id : string)
    (client_secret : option string) (g : option grant_arg) (given : option (list string))
    (w w' : World) (self : OAuthTokenProvider.t) :
  __init__ host client_id client_secret g given w = (Ok self, w') ->
  w' = w /\
  CachedTokenProvider.host self = host /\
  _client_id (sub self) = client_id /\
  _client_secret (sub self) = client_secret /\
  _cached self = None /\
  _valid_until self = (-1)%Q /\
  _clock_skew self = 10 /\
  resolve_grant_type g = Ok (grant_type (sub self)) /\
  (grant_type (sub self) = client_credentials -> is_Some client_secret) /\
  forall (e : Env) (x : Exn),
    (CachedTokenProvider._request_token self e).1 = Raise x -> defensive_error x = false.
Proof.
  unfold __init__, bind, of_result.
  destruct (resolve_grant_type g) as [m | x] eqn:Hresolve; [| discriminate].
  destruct (grant_type_is m client_credentials && bool_decide (client_secret = None))
    eqn:Hcheck; [discriminate |].
  intros [= <- <-]. simpl.
  assert (m = client_credentials -> is_Some client_secret) as Hserved.
  { intros ->. simpl in Hcheck. apply bool_decide_eq_false in Hcheck.
    destruct client_secret; [eauto | done]. }
  repeat (split; [done |]).
  intros e x. apply served_provider_raises. exact Hserved.
Qed.

(** X7. The authorization-code branch, seen from [token]: a stale provider
    calls the OAuth client once, with its scopes, the domain of its host,
    its client id and secret and no local web server; it sends nothing to
    the token endpoint and does not read the clock for the acquisition.
    What the client answers is cached as it is, the expiry being the
    client's own absolute time; what the client raises reaches the caller
    and leaves the cache alone. *)
Theorem authorization_code_acquisition (self : OAuthTokenProvider.t) (w : World) :
  grant_type (sub self) = authorization_code ->
  no_record self \/ expiring self (env w) ->
  let run := token (self, w) in
  oauth_log (env run.2.2) = (oauth_log (env w) ++ [user_credentials_call self])%list /\
  http_log (env run.2.2) = http_log (env w) /\
  clock_reads (env run.2.2) = clock_reads (checked self (env w)) /\
  match oauth_client (env w) (length (oauth_log (env w))) (user_credentials_call self) with
  | Answer rec => run.1 = Ok (Some rec.1) /\ run.2.1 = store self (Some rec.1) rec.2
  | Failure what => run.1 = Raise (ExternalError what) /\ run.2.1 = self
  end.
Proof.
  intros Hgrant Hs run. subst run.
  apply stale_iff in Hs. rewrite token_run, Hs.
  change (CachedTokenProvider._request_token self (checked self (env w)))
    with (_request_token self (checked self (env w))).
  unfold _request_token. rewrite Hgrant. simpl.
  unfold bind, get_user_credentials.
  assert (oauth_log (checked self (env w)) = oauth_log (env w)) as Hlog
    by (unfold checked; destruct (opt_truthy _); reflexivity).
  assert (oauth_client (checked self (env w)) = oauth_client (env w)) as Hclient
    by (unfold checked; destruct (opt_truthy _); reflexivity).
  assert (http_log (checked self (env w)) = http_log (env w)) as Hhttp
    by (unfold checked; destruct (opt_truthy _); reflexivity).
  fold (user_credentials_call self). rewrite Hlog, Hclient.
  destruct (oauth_client (env w) (length (oauth_log (env w))) (user_credentials_call self))
    as [rec | what]; simpl; rewrite Hlog, Hhttp; done.
Qed.

End OAuthBuilt.

Lemma init_builds_served_provider_witness :
  OAuthTokenProvider.__init__ example_host "abc" (Some "xyz")
    (Some (OAuthTokenProvider.Value "client_credentials")) None example_world
  = (Ok example_oauth, example_world) /\
  is_Some (Some "xyz") /\
  defensive_error (FoundryAPIError refusal) = false.
Proof.
  assert (OAuthTokenProvider.__init__ example_host "abc" (Some "xyz")
            (Some (OAuthTokenProvider.Value "client_credentials")) None example_world
          = (Ok example_oauth, example_world)) as Hinit by reflexivity.
  destruct (init_builds_served_provider example_host "abc" (Some "xyz")
              (Some (OAuthTokenProvider.Value "client_credentials")) None
              example_world example_world example_oauth Hinit)
    as (_ & _ & _ & _ & _ & _ & _ & _ & Hsecret & Hraises).
  split; [exact Hinit |]. split; [apply Hsecret; reflexivity |].
  apply (Hraises refusing_env). reflexivity.
Defined.

Lemma authorization_code_acquisition_witness :
  OAuthTokenProvider.grant_type (CachedTokenProvider.sub example_user_oauth) = authorization_code /\
  no_record example_user_oauth /\
  oauth_log (env (token (example_user_oauth, example_world)).2.2)
    = [user_credentials_call example_user_oauth] /\
  http_log (env (token (example_user_oauth, example_world)).2.2) = [] /\
  (token (example_user_oauth, example_world)).1 = Ok (Some "U1") /\
  (token (example_user_oauth, example_world)).2.1 = store example_user_oauth (Some "U1") 5000.
Proof.
  assert (no_record example_user_oauth) as Hnone by reflexivity.
  destruct (authorization_code_acquisition example_user_oauth example_world
              eq_refl (or_introl Hnone)) as (Hoauth & Hhttp & _ & Hanswer).
  split; [reflexivity |]. split; [exact Hnone |]. split; [exact Hoauth |].
  split; [exact Hhttp |]. exact Hanswer.
Defined.

(** ** Construction and lifetime of the app-service provider *)




Section AppServiceBuilt.

Import CachedTokenProvider AppServiceTokenProvider.





End AppServiceBuilt.


(** ** Decorating a request more than once *)

Lemma ci_setdefault_get (d : CaseInsensitiveDict.t) (key default : string) :
  is_Some (CaseInsensitiveDict.get (CaseInsensitiveDict.setdefault d key default) key).
Proof.
  unfold CaseInsensitiveDict.setdefault.
  destruct (CaseInsensitiveDict.get d key) as [v |] eqn:Hget.
  - rewrite Hget. eauto.
  - rewrite ci_get_setitem by reflexivity. eauto.
Qed.

Section DecorationTwice.

Context {P : Type} `{TokenProviderClass P}.

(** X10. A request that [requests_auth_handler] has handed back carries an
    authorization header, and handling it again, in whatever state the
    provider and the world then are, gives the same request back: a bearer
    token once written is not replaced, even if the provider has a newer
    one by then. *)
Theorem requests_auth_handler_twice (self : P) (w : World) (r : PreparedRequest) :
  forall r1 : PreparedRequest,
    (TokenProvider.requests_auth_handler (self, w, r)).1 = Ok r1 ->
    (TokenProvider.requests_auth_handler (self, w, r)).2.2 = r1 /\
    is_Some (CaseInsensitiveDict.get (headers r1) "authorization") /\
    forall σ : P * World,
      (TokenProvider.requests_auth_handler (σ, r1)).2.2 = r1 /\
      forall r2, (TokenProvider.requests_auth_handler (σ, r1)).1 = Ok r2 -> r2 = r1.
Proof.
  intros r1.
  unfold TokenProvider.requests_auth_handler, with_request, bind, zoom, get, put, ret.
  simpl. destruct (token (self, w)) as [[tok | x] σ1]; simpl; [| discriminate].
  intros [= <-]. split; [reflexivity |]. split; [apply ci_setdefault_get |].
  intros σ. destruct (token σ) as [[tok2 | x2] σ2]; simpl.
  - rewrite ci_setdefault_present by apply ci_setdefault_get.
    split; [reflexivity |]. intros r2 [= <-]. reflexivity.
  - split; [reflexivity | discriminate].
Qed.

End DecorationTwice.

Lemma requests_auth_handler_twice_witness :
  (TokenProvider.requests_auth_handler
     (JWTTokenProvider.__init__ example_host "J1", example_world, bare_request)).1
  = Ok decorated_request /\
  (TokenProvider.requests_auth_handler
     (JWTTokenProvider.__init__ example_host "J2", example_world, decorated_request)).2.2
  = decorated_request.
Proof.
  assert ((TokenProvider.requests_auth_handler
             (JWTTokenProvider.__init__ example_host "J1", example_world, bare_request)).1
          = Ok decorated_request) as Hfirst by reflexivity.
  split; [exact Hfirst |].
  destruct (requests_auth_handler_twice (JWTTokenProvider.__init__ example_host "J1")
              example_world bare_request decorated_request Hfirst) as (_ & _ & Hagain).
  exact (proj1 (Hagain (JWTTokenProvider.__init__ example_host "J2", example_world))).
Defined.

(** ** The static provider *)

(** X11. A [JWTTokenProvider] answers every [token] with the token it was
    built with and touches neither itself nor the world; so decorating a
    request with it never raises and never acquires, and the request comes
    back with the header [Bearer <jwt>] under [authorization], in any
    capitalisation, unless it had such a header already. *)
Theorem jwt_provider_is_static (host : Host) (jwt : Token) (w : World) (r : PreparedRequest) :
  let self := JWTTokenProvider.__init__ host jwt in
  let run := TokenProvider.requests_auth_handler (self, w, r) in
  token (self, w) = (Ok (Some jwt), (self, w)) /\
  run.2.1 = (self, w) /\
  run.1 = Ok run.2.2 /\
  forall name, str_lower name = "authorization" ->
    CaseInsensitiveDict.get (headers run.2.2) name =
      match CaseInsensitiveDict.get (headers r) name with
      | Some kept => Some kept
      | None => Some ("Bearer " ++ jwt)
      end.
Proof.
  cbv zeta. split; [reflexivity |]. split; [reflexivity |]. split; [reflexivity |].
  intros name Hname.
  unfold TokenProvider.requests_auth_handler, with_request, bind, zoom, get, put, ret.
  simpl. unfold CaseInsensitiveDict.setdefault.
  assert (forall d : CaseInsensitiveDict.t,
            CaseInsensitiveDict.get d name = CaseInsensitiveDict.get d "authorization")
    as Hsame by (intros d; unfold CaseInsensitiveDict.get; rewrite Hname; reflexivity).
  rewrite (Hsame (headers r)).
  destruct (CaseInsensitiveDict.get (headers r) "authorization") as [kept |] eqn:Hget.
  - rewrite Hsame. exact Hget.
  - apply ci_get_setitem. rewrite Hname. reflexivity.
Qed.

(** ** The registry *)

(** X12. [TOKEN_PROVIDER_MAPPING] always knows the keys [jwt], [oauth] and
    [app_service]; a key that an entry point brings stands for the entry
    point's class, also when it is one of those three, which the entry
    point then replaces; any other key is unknown. *)
Theorem token_provider_mapping_lookup {X : Type} (entry_points : gmap string X) (key : string) :
  TOKEN_PROVIDER_MAPPING entry_points !! key =
    match entry_points !! key with
    | Some x => Some (EntryPointClass x)
    | None =>
        if String.eqb key "jwt" then Some JWTTokenProviderClass
        else if String.eqb key "oauth" then Some OAuthTokenProviderClass
        else if String.eqb key "app_service" then Some AppServiceTokenProviderClass
        else None
    end.
Proof.
  unfold TOKEN_PROVIDER_MAPPING. rewrite lookup_union, lookup_fmap.
  destruct (entry_points !! key) as [x |]; simpl.
  - by destruct (_ !! key).
  - rewrite (left_id None _).
    destruct (String.eqb_spec key "jwt") as [-> | Hjwt]; [reflexivity |].
    rewrite lookup_insert_ne by congruence.
    destruct (String.eqb_spec key "oauth") as [-> | Hoauth]; [reflexivity |].
    rewrite lookup_insert_ne by congruence.
    destruct (String.eqb_spec key "app_service") as [-> | Happ]; [reflexivity |].
    rewrite lookup_insert_ne by congruence. apply lookup_empty.
Qed.

(** ** The basic-authentication header *)

Lemma b64_index_digit (n : N) : (n < 64)%N -> b64_index (b64_digit n) = Some n.
Proof.
  intros Hn. destruct n as [| p]; [reflexivity |].
  do 6 (destruct p as [p | p |]; try reflexivity; try lia).
Qed.

Lemma b64_digit_inj (n m : N) :
  (n < 64)%N -> (m < 64)%N -> b64_digit n = b64_digit m -> n = m.
Proof.
  intros Hn Hm Heq. apply b64_index_digit in Hn, Hm. congruence.
Qed.

Lemma b64_digit_not_pad (n : N) : (n < 64)%N -> b64_digit n <> "="%char.
Proof.
  intros Hn Heq. apply b64_index_digit in Hn. rewrite Heq in Hn. discriminate.
Qed.

Lemma b64encode_nil : b64encode [] = "".
Proof. reflexivity. Qed.

Lemma b64encode_one (a : N) :
  b64encode [a] = String (b64_digit (a / 4)) (String (b64_digit (a mod 4 * 16)) "==").
Proof. reflexivity. Qed.

Lemma b64encode_two (a b : N) :
  b64encode [a; b] =
    String (b64_digit (a / 4))
      (String (b64_digit (a mod 4 * 16 + b / 16)) (String (b64_digit (b mod 16 * 4)) "=")).
Proof. reflexivity. Qed.

Lemma b64encode_three (a b c : N) (rest : list N) :
  b64encode (a :: b :: c :: rest) =
    String (b64_digit (a / 4))
      (String (b64_digit (a mod 4 * 16 + b / 16))
         (String (b64_digit (b mod 16 * 4 + c / 64))
            (String (b64_digit (c mod 64)) (b64encode rest)))).
Proof. reflexivity. Qed.

Lemma list_ind_by_three (Q : list N -> Prop) :
  Q [] ->
  (forall a, Q [a]) ->
  (forall a b, Q [a; b]) ->
  (forall a b c rest, Q rest -> Q (a :: b :: c :: rest)) ->
  forall l, Q l.
Proof.
  intros H0 H1 H2 H3 l.
  assert (Q l /\ (forall a, Q (a :: l)) /\ (forall a b, Q (a :: b :: l))) as Hall;
    [| tauto].
  induction l as [| x l (IHl & IHl1 & IHl2)]; [auto |].
  split; [apply IHl1 |]. split; [intros a; apply IHl2 |].
  intros a b. apply H3. exact IHl.
Qed.

Lemma b64_block_inj (a b c a' b' c' : N) :
  (a < 256)%N -> (b < 256)%N -> (c < 256)%N ->
  (a' < 256)%N -> (b' < 256)%N -> (c' < 256)%N ->
  (a / 4 = a' / 4)%N ->
  (a mod 4 * 16 + b / 16 = a' mod 4 * 16 + b' / 16)%N ->
  (b mod 16 * 4 + c / 64 = b' mod 16 * 4 + c' / 64)%N ->
  (c mod 64 = c' mod 64)%N ->
  a = a' /\ b = b' /\ c = c'.
Proof.
  intros Ha Hb Hc Ha' Hb' Hc' H1 H2 H3 H4.
  pose proof (N.Div0.div_mod a 4). pose proof (N.Div0.div_mod a' 4).
  pose proof (N.Div0.div_mod b 16). pose proof (N.Div0.div_mod b' 16).
  pose proof (N.Div0.div_mod c 64). pose proof (N.Div0.div_mod c' 64).
  pose proof (N.mod_upper_bound a 4 ltac:(lia)).
  pose proof (N.mod_upper_bound a' 4 ltac:(lia)).
  pose proof (N.mod_upper_bound b 16 ltac:(lia)).
  pose proof (N.mod_upper_bound b' 16 ltac:(lia)).
  pose proof (N.mod_upper_bound c 64 ltac:(lia)).
  pose proof (N.mod_upper_bound c' 64 ltac:(lia)).
  generalize dependent (a / 4)%N. generalize dependent (a' / 4)%N.
  generalize dependent (a mod 4)%N. generalize dependent (a' mod 4)%N.
  generalize dependent (b / 16)%N. generalize dependent (b' / 16)%N.
  generalize dependent (b mod 16)%N. generalize dependent (b' mod 16)%N.
  generalize dependent (c / 64)%N. generalize dependent (c' / 64)%N.
  generalize dependent (c mod 64)%N. generalize dependent (c' mod 64)%N.
  intros. lia.
Qed.

Lemma b64_digit_bounds (a b : N) :
  (a < 256)%N -> (b < 256)%N ->
  (a / 4 < 64)%N /\ (a mod 4 * 16 + b / 16 < 64)%N /\
  (b mod 16 * 4 + a / 64 < 64)%N /\ (a mod 64 < 64)%N /\
  (a mod 4 * 16 < 64)%N /\ (b mod 16 * 4 < 64)%N.
Proof.
  intros Ha Hb.
  pose proof (N.Div0.div_mod a 4). pose proof (N.Div0.div_mod a 64).
  pose proof (N.Div0.div_mod b 16).
  pose proof (N.mod_upper_bound a 4 ltac:(lia)).
  pose proof (N.mod_upper_bound a 64 ltac:(lia)).
  pose proof (N.mod_upper_bound b 16 ltac:(lia)).
  generalize dependent (a / 4)%N. generalize dependent (a mod 4)%N.
  generalize dependent (a / 64)%N. generalize dependent (a mod 64)%N.
  generalize dependent (b / 16)%N. generalize dependent (b mod 16)%N.
  intros. lia.
Qed.

Lemma b64_first_inj (a a' : N) :
  (a / 4 = a' / 4)%N -> (a mod 4 * 16 = a' mod 4 * 16)%N -> a = a'.
Proof.
  intros H1 H2.
  pose proof (N.Div0.div_mod a 4). pose proof (N.Div0.div_mod a' 4).
  generalize dependent (a / 4)%N. generalize dependent (a' / 4)%N.
  generalize dependent (a mod 4)%N. generalize dependent (a' mod 4)%N.
  intros. lia.
Qed.

Lemma b64_pair_inj (a b a' b' : N) :
  (b < 256)%N -> (b' < 256)%N ->
  (a / 4 = a' / 4)%N ->
  (a mod 4 * 16 + b / 16 = a' mod 4 * 16 + b' / 16)%N ->
  (b mod 16 * 4 = b' mod 16 * 4)%N ->
  a = a' /\ b = b'.
Proof.
  intros Hb Hb' H1 H2 H3.
  pose proof (N.Div0.div_mod a 4). pose proof (N.Div0.div_mod a' 4).
  pose proof (N.Div0.div_mod b 16). pose proof (N.Div0.div_mod b' 16).
  pose proof (N.mod_upper_bound b 16 ltac:(lia)).
  pose proof (N.mod_upper_bound b' 16 ltac:(lia)).
  generalize dependent (a / 4)%N. generalize dependent (a' / 4)%N.
  generalize dependent (a mod 4)%N. generalize dependent (a' mod 4)%N.
  generalize dependent (b / 16)%N. generalize dependent (b' / 16)%N.
  generalize dependent (b mod 16)%N. generalize dependent (b' mod 16)%N.
  intros. lia.
Qed.

Ltac digit_bounds x y :=
  match goal with
  | Hx : (x < 256)%N, Hy : (y < 256)%N |- _ =>
      destruct (b64_digit_bounds x y Hx Hy) as (? & ? & ? & ? & ? & ?)
  end.

Ltac digit_bounds_one x :=
  match goal with
  | Hx : (x < 256)%N |- _ =>
      destruct (b64_digit_bounds x x Hx Hx) as (? & ? & ? & ? & ? & ?)
  end.

Ltac pad_is_no_digit E :=
  exfalso;
  first [ eapply b64_digit_not_pad; [| exact E]
        | eapply b64_digit_not_pad; [| symmetry; exact E] ];
  assumption.

(** Two byte strings with the same base64 text are the same. *)
Lemma b64encode_inj (l1 : list N) :
  Forall (fun x => (x < 256)%N) l1 ->
  forall l2, Forall (fun x => (x < 256)%N) l2 ->
  b64encode l1 = b64encode l2 -> l1 = l2.
Proof.
  induction l1 as [| a | a b | a b c rest IH] using list_ind_by_three;
    intros H1 l2 H2 Heq;
    destruct l2 as [| a' [| b' [| c' rest']]];
    try reflexivity;
    rewrite ?b64encode_nil, ?b64encode_one, ?b64encode_two, ?b64encode_three in Heq;
    try discriminate Heq;
    repeat match goal with
           | F : Forall _ (_ :: _) |- _ =>
               let Hx := fresh "Hx" in
               pose proof (Forall_inv F) as Hx; apply Forall_inv_tail in F; simpl in Hx
           end.
  - (* [a] against [a'] *)
    injection Heq as E1 E2.
    digit_bounds_one a. digit_bounds_one a'.
    apply b64_digit_inj in E1, E2; try assumption.
    f_equal. by apply b64_first_inj.
  - (* [a] against [a'; b'] *)
    injection Heq as _ _ E3. digit_bounds_one b'. pad_is_no_digit E3.
  - (* [a] against three or more *)
    injection Heq as _ _ E3 _. digit_bounds c' b'. pad_is_no_digit E3.
  - (* [a; b] against [a'] *)
    injection Heq as _ _ E3. digit_bounds_one b. pad_is_no_digit E3.
  - (* [a; b] against [a'; b'] *)
    injection Heq as E1 E2 E3.
    digit_bounds a b. digit_bounds a' b'.
    apply b64_digit_inj in E1, E2, E3; try assumption.
    assert (a = a' /\ b = b') as [-> ->]; [| reflexivity].
    apply b64_pair_inj; assumption.
  - (* [a; b] against three or more *)
    injection Heq as _ _ _ E4. digit_bounds_one c'. pad_is_no_digit E4.
  - (* three or more against [a'] *)
    injection Heq as _ _ E3 _. digit_bounds c b. pad_is_no_digit E3.
  - (* three or more against [a'; b'] *)
    injection Heq as _ _ _ E4. digit_bounds_one c. pad_is_no_digit E4.
  - (* three or more against three or more *)
    injection Heq as E1 E2 E3 E4 Erest.
    digit_bounds a b. digit_bounds c b. digit_bounds a' b'. digit_bounds c' b'.
    apply b64_digit_inj in E1, E2, E3, E4; try assumption.
    assert (a = a' /\ b = b' /\ c = c') as (-> & -> & ->).
    { apply b64_block_inj; assumption. }
    f_equal. f_equal. f_equal. apply IH; assumption.
Qed.

Lemma latin1_bytes_bounded (s : string) : Forall (fun x => (x < 256)%N) (latin1_bytes s).
Proof.
  unfold latin1_bytes. induction s as [| c s IH]; simpl; constructor.
  - apply N_ascii_bounded.
  - exact IH.
Qed.

Lemma latin1_bytes_inj (s1 s2 : string) : latin1_bytes s1 = latin1_bytes s2 -> s1 = s2.
Proof.
  unfold latin1_bytes. revert s2.
  induction s1 as [| c1 s1 IH]; intros [| c2 s2]; simpl; try discriminate; [done |].
  intros [= Hc Hs]. f_equal; [| by apply IH].
  rewrite <- (ascii_N_embedding c1), <- (ascii_N_embedding c2). by rewrite Hc.
Qed.

(** X13. The headers of two token requests are the same exactly when
    [client_id + ":" + client_secret] reads the same for both: the base64
    text of the [Authorization] header stands for one credential string
    only, and the header says nothing else about the provider. *)
Theorem basic_authorization_identifies_credentials
    (self1 self2 : OAuthTokenProvider.t) (secret1 secret2 : string) :
  call_headers (OAuthTokenProvider.token_request self1 secret1)
    = call_headers (OAuthTokenProvider.token_request self2 secret2)
  <-> OAuthTokenProvider._client_id (CachedTokenProvider.sub self1) ++ ":" ++ secret1
      = OAuthTokenProvider._client_id (CachedTokenProvider.sub self2) ++ ":" ++ secret2.
Proof.
  unfold OAuthTokenProvider.token_request. simpl. split.
  - intros [= Hb64]. apply latin1_bytes_inj.
    apply b64encode_inj; [apply latin1_bytes_bounded .. | exact Hb64].
  - intros ->. reflexivity.
Qed.

(** A colon in the client id reads like the one before the secret. *)
Example basic_authorization_colon :
  call_headers (OAuthTokenProvider.token_request
    (CachedTokenProvider.fresh example_host
       (OAuthTokenProvider.mk client_credentials "a:b" (Some "c") [])) "c")
  = call_headers (OAuthTokenProvider.token_request
    (CachedTokenProvider.fresh example_host
       (OAuthTokenProvider.mk client_credentials "a" (Some "b:c") [])) "b:c").
Proof. reflexivity. Qed.

(** ** One acquisition, then the cache *)

Section AcquireThenHit.

Context {C : Type} `{CachedTokenProvider.Subclass C}.

Import CachedTokenProvider.


End AcquireThenHit.


(** ** The grant type left out *)

(** Without a grant type, with [None] or with the empty string,
    [__init__] builds an authorization-code provider: it asks for no
    secret, cannot fail, and keeps the scopes given or else the built-in
    ones. *)
Lemma init_default_grant_type (host : Host) (client_id : string)
    (client_secret : option string) (given : option (list string)) (w : World)
    (g : option OAuthTokenProvider.grant_arg) :
  g = None \/ g = Some (OAuthTokenProvider.Value "") ->
  OAuthTokenProvider.__init__ host client_id client_secret g given w
    = (Ok (CachedTokenProvider.fresh host
             (OAuthTokenProvider.mk authorization_code client_id client_secret
                (default DEFAULT_OAUTH_SCOPES given))),
       w).
Proof.
  intros [-> | ->]; destruct given; reflexivity.
Qed.
